(** * DuroTrace load-test scripts: a shallow embedding and its properties

    The repository holds four k6 scripts (k6-module1.js, k6-script.js,
    k6-module2.js and module3_smartscan_loadtest.js).  Each exports a
    [default] function that the harness calls once per iteration of a
    virtual user.  The scripts build request payloads, call the HTTP client
    and hand the responses to [check] with a set of named predicates.

    The development below embeds
    - the JavaScript values the scripts build (binary64 numbers and their
      text in template strings, strings that may be null, object literals
      passed to [JSON.stringify]),
    - the k6 calls of one iteration, as a state monad that records each
      call in a trace and ends the iteration at an exception that nothing
      catches, and
    - the four [default] functions,
    and then states what the specification says about them. *)

From Stdlib Require Import ZArith NArith List String Ascii Bool Lia.
From Stdlib Require Import DecimalString DecimalN DecimalZ.
From Stdlib Require Import SpecFloat.
Import ListNotations.

Local Open Scope list_scope.
Local Open Scope string_scope.

#[local] Set Warnings "-register-all".

(** ** JavaScript values *)

Module JS.

(** The decimal digits of a natural number, all of them. *)
Definition dec (n : N) : string := NilEmpty.string_of_uint (N.to_uint n).

(** The decimal digits of an integer, with its sign: how a status code and
    a page number appear in a template literal. *)
Definition decZ (z : Z) : string := NilEmpty.string_of_int (Z.to_int z).

(** *** Null, and evaluations that throw *)

(** A value that is a string or [null] is an [option string].  Evaluating
    an expression either yields a value or throws. *)
Inductive Exception : Type := TypeError.

Inductive Completion (A : Type) : Type :=
| Normal (value : A)
| Throw (error : Exception).

Arguments Normal {A} value.
Arguments Throw {A} error.

Definition map_completion {A B} (f : A -> B) (c : Completion A) : Completion B :=
  match c with
  | Normal a => Normal (f a)
  | Throw e => Throw e
  end.

(** [v.length]: reading a property of [null] throws a TypeError. *)
Definition prop_length (v : option string) : Completion nat :=
  match v with
  | Some s => Normal (String.length s)
  | None => Throw TypeError
  end.

(** [c > n] for a length [c] that is being read. *)
Definition gt (c : Completion nat) (n : nat) : Completion bool :=
  map_completion (Nat.ltb n) c.

(** [`${v}`] for a string or [null]. *)
Definition text_of (v : option string) : string :=
  match v with
  | Some s => s
  | None => "null"
  end.

Definition dquote : ascii := "034"%char.
Definition backslash : ascii := "092"%char.

Definition hexdigit (n : nat) : ascii :=
  match n with
  | 0 => "0" | 1 => "1" | 2 => "2" | 3 => "3" | 4 => "4" | 5 => "5"
  | 6 => "6" | 7 => "7" | 8 => "8" | 9 => "9" | 10 => "a" | 11 => "b"
  | 12 => "c" | 13 => "d" | 14 => "e" | _ => "f"
  end%char.

(** One character of a string literal as [JSON.stringify] writes it. *)
Definition escape_char (c : ascii) : string :=
  let n := nat_of_ascii c in
  if Ascii.eqb c dquote then String backslash (String dquote EmptyString)
  else if Ascii.eqb c backslash then String backslash (String backslash EmptyString)
  else if Nat.ltb n 32 then
    match n with
    | 8 => String backslash "b"
    | 9 => String backslash "t"
    | 10 => String backslash "n"
    | 12 => String backslash "f"
    | 13 => String backslash "r"
    | _ => String backslash
             ("u00" ++ String (hexdigit (n / 16)) (String (hexdigit (n mod 16)) EmptyString))
    end
  else String c EmptyString.

Fixpoint escape (s : string) : string :=
  match s with
  | EmptyString => EmptyString
  | String c s' => escape_char c ++ escape s'
  end.

Definition quote (s : string) : string :=
  String dquote (escape s ++ String dquote EmptyString).

(** The values that occur in the scripts' object literals.  An object keeps
    its properties in the order in which the literal lists them, which is
    also the order [JSON.stringify] writes them in. *)
Inductive json : Type :=
| JNum (z : Z)
| JStr (s : string)
| JArr (elems : list json)
| JObj (props : list (string * json)).

Fixpoint join (sep : string) (l : list string) : string :=
  match l with
  | [] => EmptyString
  | [x] => x
  | x :: rest => x ++ sep ++ join sep rest
  end.

Fixpoint JSON_stringify (j : json) : string :=
  match j with
  | JNum z => decZ z
  | JStr s => quote s
  | JArr elems => "[" ++ join "," (map JSON_stringify elems) ++ "]"
  | JObj props =>
      "{" ++ join "," (map (fun kv => quote (fst kv) ++ ":" ++ JSON_stringify (snd kv)) props)
          ++ "}"
  end.

(** Reading a value back: the named property of an object, the elements
    of an array, the property names of an object. *)
Fixpoint lookup (k : string) (props : list (string * json)) : option json :=
  match props with
  | [] => None
  | (k', v) :: rest => if String.eqb k k' then Some v else lookup k rest
  end.

Definition field (k : string) (j : json) : option json :=
  match j with
  | JObj props => lookup k props
  | _ => None
  end.

Definition keys (j : json) : list string :=
  match j with
  | JObj props => map fst props
  | _ => []
  end.

Definition elements (j : json) : list json :=
  match j with
  | JArr elems => elems
  | _ => []
  end.

End JS.
Import JS.

(** ** Numbers

    A JavaScript number is an IEEE-754 binary64 number: [Math.random()]
    yields one, the counters [__VU] and [__ITER] are ones, and every product
    and sum is rounded to one.  They are modelled bit for bit with the
    standard library's specification of binary floating point, at
    precision 53 and exponent bound 1024. *)

Module Double.

Definition prec : Z := 53.
Definition emax : Z := 1024.

Definition double : Type := spec_float.

(** The well-formed encodings: a finite number has its canonical mantissa
    and an exponent in range. *)
Definition valid (x : double) : bool := valid_binary prec emax x.

(** The double nearest to an integer (the integer itself below 2^53). *)
Definition of_Z (z : Z) : double := binary_normalize prec emax z 0 false.

(** The number k6 hands to the script for a counter it keeps as an
    integer. *)
Definition of_N (n : N) : double := of_Z (Z.of_N n).

Definition mul (x y : double) : double := SFmul prec emax x y.
Definition add (x y : double) : double := SFadd prec emax x y.
Definition ltb (x y : double) : bool := SFltb x y.
Definition leb (x y : double) : bool := SFleb x y.

(** The contract of [Math.random]: a number r with 0 <= r < 1. *)
Definition in_unit_interval (r : double) : bool :=
  valid r && leb (of_Z 0) r && ltb r (of_Z 1).

(** The largest integer not above (-1)^s * m * 2^e.  A shift by a negative
    amount is a shift to the right, which rounds towards minus infinity. *)
Definition Zfloor (s : bool) (m : positive) (e : Z) : Z :=
  Z.shiftl (cond_Zopp s (Zpos m)) e.

(** [Math.floor].  Its result is an integral number, kept in [Z] like the
    other integral numbers of this development.  NaN and the infinities
    have no integral floor; they are mapped to 0 here and never reach
    [Math.floor] in the scripts (see [random_times_100_finite]). *)
Definition Math_floor (x : double) : Z :=
  match x with
  | S754_finite s m e => Zfloor s m e
  | _ => 0%Z
  end.

(** The numbers that are neither NaN nor infinite. *)
Definition is_finite (x : double) : bool :=
  match x with
  | S754_zero _ | S754_finite _ _ _ => true
  | _ => false
  end.

(** The number 100: mantissa 25 * 2^48 at exponent -46. *)
Definition hundred : double := S754_finite false 7036874417766400 (-46).

(** *** A number in a template literal

    [`${x}`] writes the shortest decimal digits s (k of them) and the
    decimal position n for which s * 10^(n-k) is nearer to x than to any
    other binary64 number; among several such s the one nearest to x, and
    the even one at equal distance.  The digits are laid out without an
    exponent when 0 < n <= 21, as a plain decimal fraction when
    -6 < n <= 0, and with an exponent otherwise. *)

Local Open Scope Z_scope.

(** Fractions of integers with a positive denominator, compared and
    subtracted exactly. *)
Definition Fraction : Type := (Z * Z)%type.
Definition qle (a b : Fraction) : bool := fst a * snd b <=? fst b * snd a.
Definition qlt (a b : Fraction) : bool := fst a * snd b <? fst b * snd a.
Definition qsub (a b : Fraction) : Fraction := (fst a * snd b - fst b * snd a, snd a * snd b).
Definition qdiv (a b : Fraction) : Fraction := (fst a * snd b, snd a * fst b).
Definition qfloor (a : Fraction) : Z := fst a / snd a.

(** m * 2^e and s * 10^p. *)
Definition dyadic (m e : Z) : Fraction := if 0 <=? e then (m * 2 ^ e, 1) else (m, 2 ^ (- e)).
Definition decimal (s p : Z) : Fraction := if 0 <=? p then (s * 10 ^ p, 1) else (s, 10 ^ (- p)).

(** The numbers halfway between m * 2^e and the binary64 numbers next to
    it.  The one below is half as far when m is the least mantissa of 53
    bits and the exponent is not the least one. *)
Definition lower_midpoint (m e : Z) : Fraction :=
  if (m =? 2 ^ 52) && (-1074 <? e) then dyadic (4 * m - 1) (e - 2) else dyadic (2 * m - 1) (e - 1).
Definition upper_midpoint (m e : Z) : Fraction := dyadic (2 * m + 1) (e - 1).

(** Whether y is rounded to m * 2^e: it lies between the midpoints, which
    themselves are rounded to the number with the even mantissa. *)
Definition rounds_to (m e : Z) (y : Fraction) : bool :=
  if Z.even m
  then qle (lower_midpoint m e) y && qle y (upper_midpoint m e)
  else qlt (lower_midpoint m e) y && qlt y (upper_midpoint m e).

(** The least n, from the given one on, with x < 10^n. *)
Fixpoint magnitude (fuel : nat) (x : Fraction) (n : Z) : Z :=
  match fuel with
  | O => n
  | S fuel' => if qlt x (decimal 1 n) then n else magnitude fuel' x (n + 1)
  end.

(** The digits s of length k and their position, for x = m * 2^e with
    10^(n-1) <= x < 10^n: one of the two k-digit numbers around
    x / 10^(n-k), where the upper one may be 10^k, which is the digit 1 one
    position higher.  [None] when neither is rounded to x. *)
Definition digits_of_length (m e n k : Z) : option (Z * Z) :=
  let x := dyadic m e in
  let value (c : Z * Z) := decimal (fst c) (snd c - k) in
  let below := qfloor (qdiv x (decimal 1 (n - k))) in
  let lower := (below, n) in
  let upper := if below + 1 =? 10 ^ k then (10 ^ (k - 1), n + 1) else (below + 1, n) in
  match rounds_to m e (value lower), rounds_to m e (value upper) with
  | true, false => Some lower
  | false, true => Some upper
  | false, false => None
  | true, true =>
      let dl := qsub x (value lower) in
      let du := qsub (value upper) x in
      if qlt dl du then Some lower
      else if qlt du dl then Some upper
      else if Z.even below then Some lower else Some upper
  end.

(** The shortest digits: the first length from k on that has some; 17
    digits tell any two binary64 numbers apart. *)
Fixpoint shortest (fuel : nat) (m e n k : Z) : Z * Z * Z :=
  match fuel with
  | O => (qfloor (qdiv (dyadic m e) (decimal 1 (n - k))), n, k)
  | S fuel' =>
      match digits_of_length m e n k with
      | Some (s, n') => (s, n', k)
      | None => shortest fuel' m e n (k + 1)
      end
  end.

Fixpoint zeros (n : nat) : string :=
  match n with O => EmptyString | S n' => String "0" (zeros n') end.

(** The layout of the k digits of s at the position n. *)
Definition format (s n k : Z) : string :=
  let ds := dec (Z.to_N s) in
  if (k <=? n) && (n <=? 21) then ds ++ zeros (Z.to_nat (n - k))
  else if (0 <? n) && (n <=? 21) then
    substring 0 (Z.to_nat n) ds ++ "." ++ substring (Z.to_nat n) (Z.to_nat (k - n)) ds
  else if (-6 <? n) && (n <=? 0) then "0." ++ zeros (Z.to_nat (- n)) ++ ds
  else
    let e := n - 1 in
    let exponent := (if 0 <=? e then "e+" else "e-") ++ dec (Z.to_N (Z.abs e)) in
    if k =? 1 then ds ++ exponent
    else substring 0 1 ds ++ "." ++ substring 1 (Z.to_nat (k - 1)) ds ++ exponent.

(** The text of m * 2^e by the search for the shortest digits.  The least
    positive binary64 number is above 10^(-324) and the largest below
    10^309. *)
Definition shortest_text (m : positive) (e : Z) : string :=
  let n := magnitude 640 (dyadic (Zpos m) e) (-324) in
  let '(s, n', k) := shortest 17 (Zpos m) e n 1 in
  format s n' k.

(** m * 2^e when it is an integer, and when it is one below 2^53. *)
Definition integer_value (m : positive) (e : Z) : option N :=
  if 0 <=? e then Some (Z.to_N (Zpos m * 2 ^ e))
  else if Zpos m mod 2 ^ (- e) =? 0 then Some (Z.to_N (Zpos m / 2 ^ (- e)))
  else None.

Definition safe_integer (m : positive) (e : Z) : option N :=
  match integer_value m e with
  | Some v => if (v <? 2 ^ 53)%N then Some v else None
  | None => None
  end.

(** [`${x}`].  The binary64 numbers next to an integer below 2^53 are at
    most 1 away, so no other integer is rounded to it: its shortest digits
    are its own without the zeros at the end, and the layout puts the zeros
    back.  Such an integer is therefore written with all its decimal
    digits; every other number goes through the search. *)
Definition Number_toString (x : double) : string :=
  match x with
  | S754_nan => "NaN"
  | S754_zero _ => "0"
  | S754_infinity false => "Infinity"
  | S754_infinity true => "-Infinity"
  | S754_finite sign m e =>
      (if sign then "-" else EmptyString) ++
      match safe_integer m e with
      | Some v => dec v
      | None => shortest_text m e
      end
  end.

End Double.

(** ** Payload builders of module3_smartscan_loadtest.js *)

Module SmartScanPayload.

Section Counters.
(** k6 sets the globals [__VU] and [__ITER] before it calls [default]: the
    number of the virtual user and the number of its iteration, which k6
    counts in integers and the script reads as numbers. *)
Variables VU ITER : N.

Definition numericPart : Double.double :=
  Double.add (Double.mul (Double.of_N VU) (Double.of_Z 10000)) (Double.of_N ITER).

Definition uniqueOrderNumber : string :=
  "123456789" ++ Double.Number_toString numericPart.

(** The single line item of the order literal. *)
Definition orderItem : json :=
  JObj [ ("itemnumber", JStr "10");
         ("materialcode", JStr "CB88SHFLIBLENDGJ03651C001025250GSMG");
         ("materialdescription", JStr "CB88SHFLI BLEND GJ03651-C001025 250GSM");
         ("orderedquantity", JNum 1000);
         ("confirmedgrqty", JNum 1000);
         ("storagelocation", JStr "RM03");
         ("uom", JStr "M");
         ("ordernumber", JStr uniqueOrderNumber);
         ("lineorderstatus", JStr "C");
         ("content", JStr EmptyString);
         ("category", JStr EmptyString);
         ("model", JStr EmptyString);
         ("productcode", JStr EmptyString);
         ("dimension", JStr EmptyString);
         ("netqty", JNum 1);
         ("monthyear", JStr EmptyString);
         ("mrp", JNum 0);
         ("eannumber", JStr EmptyString);
         ("mfgplantadd", JStr EmptyString);
         ("customercare", JStr EmptyString);
         ("l1code", JStr "99");
         ("l1text", JStr "To be Created");
         ("l2code", JStr "9999");
         ("l2text", JStr "To be Created");
         ("l3code", JStr "999999");
         ("l3text", JStr "To be Created");
         ("l4code", JStr "99999999");
         ("l4text", JStr "To be Created");
         ("l5code", JStr "999999999999");
         ("l5text", JStr "To be Created");
         ("l6code", JStr "99999999999999999");
         ("l6text", JStr "To be Created");
         ("remarks", JStr EmptyString);
         ("attr1", JStr "0.000 ");
         ("attr2", JStr "0.000 ");
         ("attr3", JStr "0.000 ");
         ("attr4", JStr EmptyString);
         ("attr5", JStr EmptyString);
         ("type", JNum 0) ].

Definition orderRecord : json :=
  JObj [ ("transactiontype", JStr "PURCHASE_ORDER");
         ("ordernumber", JStr uniqueOrderNumber);
         ("orderdate", JStr "18/08/2025");
         ("ordertime", JStr "12:16:22");
         ("plantcode", JStr "P003");
         ("prodorderstatus", JStr EmptyString);
         ("storagelocation", JStr "RM03");
         ("vendorCode", JStr "200128    ");
         ("vendorName", JStr "GLOBAL TEXTILES ALLIANCE PVT LTD");
         ("items", JArr [ orderItem ]) ].

(** The object literal that [generateOrderPayload] serialises. *)
Definition orderObject : json := JObj [ ("order", JArr [ orderRecord ]) ].

Definition generateOrderPayload : string := JSON_stringify orderObject.

Definition serialNumber : string :=
  "P00302H4QhG6M1b00E-" ++ Double.Number_toString (Double.of_N VU)
                        ++ "-" ++ Double.Number_toString (Double.of_N ITER).

(** The object literal that [generateMrpReprintPayload] serialises. *)
Definition mrpReprintObject : json :=
  JObj [ ("po_details_code", JStr "a6dd5d05-318f-4bca-833d-48d01aea97a3");
         ("serial_number", JStr serialNumber) ].

Definition generateMrpReprintPayload : string := JSON_stringify mrpReprintObject.

End Counters.

End SmartScanPayload.

(** ** The k6 calls of one iteration *)

Module K6.

Import Double.

Inductive Method : Type := GET | POST.

(** The [params] argument of [http.get] and [http.post]: request headers
    and metric tags. *)
Record Params : Type := mkParams {
  headers : list (string * string);
  tags : list (string * string)
}.

Record Request : Type := mkRequest {
  method : Method;
  url : string;
  payload : option string;
  params : Params
}.

(** What comes back from a call, as far as the scripts read it: the
    status code, the body and the time the exchange took.  The body is a
    text (no script asks for a binary or a discarded body), or [null]:
    when a call fails before a response arrives (a refused connection, a
    timeout), k6 returns a response object with status 0 and a null
    body. *)
Record Reply : Type := mkReply {
  reply_status : Z;
  reply_body : option string;
  reply_duration : double
}.

(** The object [http.get] and [http.post] return: the reply together with
    the request it answers. *)
Record Response : Type := mkResponse {
  request : Request;
  status : Z;
  body : option string;
  timings_duration : double
}.

(** The second argument of [check]: named predicates on the response, in
    the order of the object literal.  A predicate is a function of the
    script; evaluating it yields a truth value or throws. *)
Definition Predicate : Type := Response -> Completion bool.
Definition Checks : Type := list (string * Predicate).

(** Everything outside the script during one iteration: what comes back
    from the k-th call, and what the k-th call of [Math.random]
    returns. *)
Record World : Type := mkWorld {
  server : nat -> Request -> Reply;
  random : nat -> double
}.

(** The calls a script makes into k6 and the console, in order. *)
Inductive Event : Type :=
| EvGroup (name : string)
| EvGroupEnd (name : string)
| EvHttp (req : Request) (res : Response)
| EvCheck (res : Response) (checks : Checks)
| EvLog (msg : string)
| EvTrend (metric : string) (value : double)
| EvSleep (seconds : Z).

Record State : Type := mkState {
  calls : nat;
  draws : nat;
  trace : list Event
}.

(** A piece of script: given the world and the state so far it yields a
    value or throws, and leaves the state reached up to there. *)
Definition K6 (A : Type) : Type := World -> State -> Completion A * State.

Definition ret {A} (a : A) : K6 A := fun _ st => (Normal a, st).

(** An exception that nothing catches ends the function: what follows the
    throwing statement is not run. *)
Definition throw {A} (e : Exception) : K6 A := fun _ st => (Throw e, st).

Definition bind {A B} (m : K6 A) (k : A -> K6 B) : K6 B :=
  fun w st =>
    match m w st with
    | (Normal a, st') => k a w st'
    | (Throw e, st') => (Throw e, st')
    end.

Declare Scope k6_scope.
Delimit Scope k6_scope with k6.
Notation "x <- m ;; k" := (bind m (fun x => k))
  (at level 61, m at next level, right associativity) : k6_scope.
Notation "m ;; k" := (bind m (fun _ => k))
  (at level 61, right associativity) : k6_scope.
Local Open Scope k6_scope.

Definition emit (e : Event) : K6 unit :=
  fun _ st => (Normal tt, mkState (calls st) (draws st) (trace st ++ [e])%list).

(** The response object for the k-th call of the iteration. *)
Definition exchange (w : World) (k : nat) (req : Request) : Response :=
  let rep := server w k req in
  mkResponse req (reply_status rep) (reply_body rep) (reply_duration rep).

Definition http_request (req : Request) : K6 Response :=
  fun w st =>
    let res := exchange w (calls st) req in
    (Normal res,
     mkState (S (calls st)) (draws st) (trace st ++ [EvHttp req res])%list).

Definition http_get (u : string) (p : Params) : K6 Response :=
  http_request (mkRequest GET u None p).

Definition http_post (u : string) (data : string) (p : Params) : K6 Response :=
  http_request (mkRequest POST u (Some data) p).

(** The predicates of [sets] on [res], taken in order: whether all of them
    hold, or the exception of the first one that throws. *)
Fixpoint evaluate (sets : Checks) (res : Response) : Completion bool :=
  match sets with
  | [] => Normal true
  | (_, p) :: rest =>
      match p res with
      | Throw e => Throw e
      | Normal b =>
          match evaluate rest res with
          | Throw e => Throw e
          | Normal b' => Normal (b && b')
          end
      end
  end.

(** [check(res, sets)] evaluates the predicates of [sets] on [res] in
    order and returns whether all of them hold.  When a predicate throws,
    the exception leaves [check]: the caller sees it at the call. *)
Definition check (res : Response) (sets : Checks) : K6 bool :=
  emit (EvCheck res sets) ;;
  match evaluate sets res with
  | Normal b => ret b
  | Throw e => throw e
  end.

(** [group(name, fn)] runs [fn] inside the group [name].  The group is
    left when [fn] returns and also when it throws; the exception then
    goes on to the caller of [group]. *)
Definition group {A} (name : string) (fn : K6 A) : K6 A :=
  fun w st =>
    match (emit (EvGroup name) ;; fn) w st with
    | (c, st') => (c, mkState (calls st') (draws st') (trace st' ++ [EvGroupEnd name])%list)
    end.

Definition sleep (seconds : Z) : K6 unit := emit (EvSleep seconds).

Definition console_log (msg : string) : K6 unit := emit (EvLog msg).

Definition trend_add (metric : string) (value : double) : K6 unit :=
  emit (EvTrend metric value).

Definition Math_random : K6 double :=
  fun w st => (Normal (random w (draws st)), mkState (calls st) (S (draws st)) (trace st)).

Definition when (b : bool) (m : K6 unit) : K6 unit := if b then m else ret tt.

(** The trace of one run, from the empty state, and how the run ended:
    normally, or with an exception that the script did not catch (k6 then
    abandons the iteration). *)
Definition run {A} (m : K6 A) (w : World) : list Event :=
  trace (snd (m w (mkState 0 0 []))).

Definition completion {A} (m : K6 A) (w : World) : Completion A :=
  fst (m w (mkState 0 0 [])).

(** *** What an observer reads off a trace *)

Definition requests (t : list Event) : list Request :=
  flat_map (fun e => match e with EvHttp req _ => [req] | _ => [] end) t.

Definition logs (t : list Event) : list string :=
  flat_map (fun e => match e with EvLog msg => [msg] | _ => [] end) t.

(** The [check] calls: the response checked and the predicate set. *)
Definition check_calls (t : list Event) : list (Response * Checks) :=
  flat_map (fun e => match e with EvCheck res cs => [(res, cs)] | _ => [] end) t.

(** The predicates that [check] evaluated in a call, each with what its
    evaluation gave: those up to the first one that throws. *)
Fixpoint outcomes (res : Response) (cs : Checks) : list (string * Completion bool) :=
  match cs with
  | [] => []
  | (label, p) :: rest =>
      match p res with
      | Normal b => (label, Normal b) :: outcomes res rest
      | Throw e => [(label, Throw e)]
      end
  end.

Definition check_outcomes (t : list Event) : list (string * Completion bool) :=
  flat_map (fun rc => outcomes (fst rc) (snd rc)) (check_calls t).

(** A predicate that was evaluated and held. *)
Definition passed (c : Completion bool) : bool :=
  match c with
  | Normal b => b
  | Throw _ => false
  end.

(** The part of a URL before the query string. *)
Fixpoint endpoint (u : string) : string :=
  match u with
  | EmptyString => EmptyString
  | String c rest => if Ascii.eqb c "?" then EmptyString else String c (endpoint rest)
  end.

End K6.

Import K6.
Local Open Scope k6_scope.
Local Open Scope Z_scope.

(** The predicates of the scripts are [r.status === code], written
    [Normal (status r =? code)]: reading the status and comparing numbers
    does not throw; and [r.body.length > 0], written
    [gt (prop_length (body r)) 0]: a body is empty exactly when its length
    is 0, in whichever unit the length is counted, and a null body has no
    length to read. *)

Definition json_headers : Params :=
  mkParams [("Content-Type", "application/json")] [].

(** The exported [options] of a script: the ramp stages, the thresholds
    per metric, and the [ext] block where there is one. *)
Record Stage : Type := mkStage {
  duration : string;
  target : Z
}.

Record Options : Type := mkOptions {
  stages : list Stage;
  thresholds : list (string * list string);
  ext : option json
}.

(** ** k6-module1.js: serial codes and master data *)

Module Module1.

Definition BASE_URL : string := "https://dev-durotrace-api.azurewebsites.net".

Definition generatePayload : json :=
  JObj [ ("product_category_code", JNum 1);
         ("plant_code", JStr "P001");
         ("procurement_type_code", JNum 1);
         ("no_of_code", JNum 2);
         ("user_code", JStr "3fa85f64-5717-4562-b3fc-2c963f66afa6") ].

Definition options : Options :=
  mkOptions
    [ mkStage "1m" 10; mkStage "5m" 10; mkStage "10s" 0 ]
    [ ("http_req_failed", ["rate<0.01"]);
      ("http_req_duration", ["p(95)<2000"]) ]
    None.

Definition default : K6 unit :=
  group "Module 1: Serial Codes & Master Data Tests" (
    group "GET - Get Serial Code Details" (
      res <- http_get (BASE_URL ++ "/api/serialcode/get-serial-code-details-data") json_headers ;;
      check res [ ("GET details status is 200", fun r => Normal (status r =? 200));
                  ("GET details has non-empty body", fun r => gt (prop_length (body r)) 0) ]
    ) ;;
    group "POST - Generate Serial Codes" (
      let payload := JSON_stringify generatePayload in
      res <- http_post (BASE_URL ++ "/api/serialcode/generate") payload json_headers ;;
      check res [ ("POST generate status is 201", fun r => Normal (status r =? 201));
                  ("POST generate has non-empty body", fun r => gt (prop_length (body r)) 0) ]
    ) ;;
    group "GET - Get Serial Code Headers" (
      res <- http_get (BASE_URL ++ "/api/serialcode/get-serial-code-headers-data") json_headers ;;
      check res [ ("GET headers status is 200", fun r => Normal (status r =? 200));
                  ("GET headers has non-empty body", fun r => gt (prop_length (body r)) 0) ]
    ) ;;
    group "Master Data Endpoints" (
      plantsRes <- http_get (BASE_URL ++ "/api/master/get-plants-data") json_headers ;;
      check plantsRes
            [ ("GET plants data status is 200", fun r => Normal (status r =? 200));
              ("GET plants data has non-empty body", fun r => gt (prop_length (body r)) 0) ] ;;
      categoriesRes <- http_get (BASE_URL ++ "/api/master/get-product-categories-data") json_headers ;;
      check categoriesRes
            [ ("GET product categories status is 200", fun r => Normal (status r =? 200));
              ("GET product categories has non-empty body",
               fun r => gt (prop_length (body r)) 0) ] ;;
      procurementRes <- http_get (BASE_URL ++ "/api/master/get-procurement-types-data") json_headers ;;
      check procurementRes
            [ ("GET procurement types status is 200", fun r => Normal (status r =? 200));
              ("GET procurement types has non-empty body",
               fun r => gt (prop_length (body r)) 0) ]
    )
  ) ;;
  sleep 1.

End Module1.

(** ** k6-script.js: paginated data, headers, generate *)

Module Script.

Definition BASE_URL : string := "https://dev-durotrace-api.azurewebsites.net".

(** [Math.floor(Math.random() * 100) + 1], for the random number [r]. *)
Definition page (r : Double.double) : Z :=
  Double.Math_floor (Double.mul r (Double.of_Z 100)) + 1.

Definition pageSize : Z := 50.

Definition paginatedUrl (r : Double.double) : string :=
  BASE_URL ++ "/api/serialcode/get-serial-codes-data?page=" ++ decZ (page r)
           ++ "&pageSize=" ++ decZ pageSize.

Definition generatePayload : json :=
  JObj [ ("product_category_code", JNum 1);
         ("plant_code", JStr "P001");
         ("procurement_type_code", JNum 1);
         ("no_of_code", JNum 2);
         ("user_code", JStr "3fa85f64-5717-4562-b3fc-2c963f66afa6") ].

(** The custom trend metrics, by the names they are registered under. *)
Definition getPaginatedDataTrend : string := "get_paginated_data_duration".
Definition getHeadersTrend : string := "get_serial_code_headers_duration".
Definition postGenerateTrend : string := "post_generate_duration".

Definition options : Options :=
  mkOptions
    []
    [ ("http_req_failed", ["rate<0.01"]);
      ("get_paginated_data_duration", ["p(95)<1000"; "p(90)<500"]);
      ("get_serial_code_headers_duration", ["p(95)<500"; "p(90)<200"]);
      ("post_generate_duration", ["p(95)<1000"; "p(90)<500"]) ]
    None.

Definition default : K6 unit :=
  group "Durotrace API Performance Tests" (
    group "GET - Get Paginated Data" (
      r <- Math_random ;;
      res <- http_get (paginatedUrl r) json_headers ;;
      trend_add getPaginatedDataTrend (timings_duration res) ;;
      check res [ ("Paginated GET status is 200", fun r => Normal (status r =? 200));
                  ("Paginated GET has non-empty body", fun r => gt (prop_length (body r)) 0) ]
    ) ;;
    group "GET - Get Serial Code Headers" (
      res <- http_get (BASE_URL ++ "/api/serialcode/get-serial-code-headers-data") json_headers ;;
      trend_add getHeadersTrend (timings_duration res) ;;
      check res [ ("GET headers status is 200", fun r => Normal (status r =? 200));
                  ("GET headers has non-empty body", fun r => gt (prop_length (body r)) 0) ]
    ) ;;
    group "POST - Generate Serial Codes" (
      let payload := JSON_stringify generatePayload in
      res <- http_post (BASE_URL ++ "/api/serialcode/generate") payload json_headers ;;
      trend_add postGenerateTrend (timings_duration res) ;;
      check res [ ("POST generate status is 201", fun r => Normal (status r =? 201));
                  ("POST generate has non-empty body", fun r => gt (prop_length (body r)) 0) ]
    )
  ) ;;
  ret tt.

End Script.

(** ** k6-module2.js: SmartPrint *)

Module Module2.

Definition BASE_URL : string := "https://dev-durotrace-api.azurewebsites.net".

Definition smartPrintPayload : json :=
  JObj [ ("vendor_type", JStr "Vendor");
         ("vendor_code", JStr "3fa85f64-5717-4562-b3fc-2c963f66afa4");
         ("file_format", JStr "PDF");
         ("delivery_method", JStr "FileDownload");
         ("no_of_code", JNum 3);
         ("plant_code", JStr "P001");
         ("plant_name", JStr "PDN Factory");
         ("user_code", JStr "3fa85f64-5717-4562-b3fc-2c963f66afa6") ].

Definition options : Options :=
  mkOptions
    [ mkStage "1m" 10; mkStage "5m" 10; mkStage "10s" 0 ]
    [ ("http_req_failed", ["rate<0.01"]);
      ("http_req_duration", ["p(95)<2000"]) ]
    None.

Definition default : K6 unit :=
  group "Module 2: SmartPrint Tests" (
    group "POST - SmartPrint" (
      let payload := JSON_stringify smartPrintPayload in
      res <- http_post (BASE_URL ++ "/api/SmartPrint") payload json_headers ;;
      check res [ ("POST SmartPrint status is 201", fun r => Normal (status r =? 201));
                  ("POST SmartPrint has non-empty body", fun r => gt (prop_length (body r)) 0) ]
    ) ;;
    group "SmartPrint GET Endpoints" (
      headersRes <- http_get (BASE_URL ++ "/api/smartprint/get-smart-print-headers-data") json_headers ;;
      check headersRes
            [ ("GET smart print headers status is 200", fun r => Normal (status r =? 200));
              ("GET smart print headers has non-empty body",
               fun r => gt (prop_length (body r)) 0) ] ;;
      detailsRes <- http_get (BASE_URL ++ "/api/smartprint/get-smart-print-details-data") json_headers ;;
      check detailsRes
            [ ("GET smart print details status is 200", fun r => Normal (status r =? 200));
              ("GET smart print details has non-empty body",
               fun r => gt (prop_length (body r)) 0) ]
    )
  ) ;;
  sleep 1.

End Module2.

(** ** module3_smartscan_loadtest.js: smart scan capture *)

Module SmartScan.

Import SmartScanPayload.

Definition BASE_URL : string := "https://dev-durotrace-api.azurewebsites.net".

Definition SMART_SCAN_CAPTURE_GENERATE_ENDPOINT : string :=
  BASE_URL ++ "/api/smartscancapture/generate".
Definition SMART_SCAN_CAPTURE_GET_HEADERS_ENDPOINT : string :=
  BASE_URL ++ "/api/smartscancapture/get-po-headers-data".
Definition SMART_SCAN_CAPTURE_GET_DETAILS_ENDPOINT : string :=
  BASE_URL ++ "/api/smartscancapture/get-po-details-data".
Definition SMART_SCAN_CAPTURE_MRP_REPRINT_ENDPOINT : string :=
  BASE_URL ++ "/api/smartscancapture/mrp-reprint".

Definition options : Options :=
  mkOptions
    [ mkStage "60s" 20; mkStage "60s" 20; mkStage "30s" 0 ]
    [ ("http_req_duration", ["p(95)<2000"]);
      ("http_req_failed", ["rate<0.01"]);
      ("checks", ["rate>0.99"]) ]
    (Some (JObj [ ("loadimpact",
                   JObj [ ("projectID", JNum 3568600);
                          ("name", JStr "Durotrace Smart Scan Capture Combined Test (Scan Removed)")
                        ]) ])).

(** The text of the debugging line for a failed generate call. *)
Definition generateFailMessage (res : Response) : string :=
  "[GENERATE FAIL] Status: " ++ decZ (status res) ++ ", Body: " ++ text_of (body res).

Definition default (VU ITER : N) : K6 unit :=
  let orderPayload := generateOrderPayload VU ITER in
  let mrpReprintPayload := generateMrpReprintPayload VU ITER in
  let postParams := mkParams [("Content-Type", "application/json")] [] in
  group "Module 3: Smart Scan Capture - Combined Tests" (
    group "POST Endpoints (Write/Action)" (
      let generateParams := mkParams (headers postParams) [("name", "Smart Scan Generate POST")] in
      resGenerate <- http_post SMART_SCAN_CAPTURE_GENERATE_ENDPOINT orderPayload generateParams ;;
      when (400 <=? status resGenerate) (console_log (generateFailMessage resGenerate)) ;;
      check resGenerate
            [ ("Generate: status is 200/201",
               fun r => Normal ((status r =? 200) || (status r =? 201))) ] ;;
      let mrpParams := mkParams (headers postParams) [("name", "Smart Scan MRP Reprint POST")] in
      resMrp <- http_post SMART_SCAN_CAPTURE_MRP_REPRINT_ENDPOINT mrpReprintPayload mrpParams ;;
      check resMrp
            [ ("MRP Reprint: status is 200/201",
               fun r => Normal ((status r =? 200) || (status r =? 201))) ]
    ) ;;
    group "GET Endpoints (Data Retrieval)" (
      let headersParams := mkParams [] [("name", "Smart Scan GET PO Headers")] in
      resHeaders <- http_get SMART_SCAN_CAPTURE_GET_HEADERS_ENDPOINT headersParams ;;
      check resHeaders
            [ ("GET PO Headers status is 200", fun r => Normal (status r =? 200));
              ("GET PO Headers has non-empty body", fun r => gt (prop_length (body r)) 0) ] ;;
      let detailsParams := mkParams [] [("name", "Smart Scan GET PO Details")] in
      resDetails <- http_get SMART_SCAN_CAPTURE_GET_DETAILS_ENDPOINT detailsParams ;;
      check resDetails
            [ ("GET PO Details status is 200", fun r => Normal (status r =? 200));
              ("GET PO Details has non-empty body", fun r => gt (prop_length (body r)) 0) ]
    ) ;;
    sleep 1
  ).

End SmartScan.

(** ** The four scripts together *)

Inductive ScriptName : Type := K6Module1 | K6Script | K6Module2 | K6SmartScan.

(** One iteration of a script, for the virtual user [VU] in its iteration
    number [ITER]. *)
Definition iteration (s : ScriptName) (VU ITER : N) : K6 unit :=
  match s with
  | K6Module1 => Module1.default
  | K6Script => Script.default
  | K6Module2 => Module2.default
  | K6SmartScan => SmartScan.default VU ITER
  end.

Definition options_of (s : ScriptName) : Options :=
  match s with
  | K6Module1 => Module1.options
  | K6Script => Script.options
  | K6Module2 => Module2.options
  | K6SmartScan => SmartScan.options
  end.

(** ** Vocabulary of the properties *)

Definition API : string := "https://dev-durotrace-api.azurewebsites.net".

(** The endpoints of one iteration, in the order of the calls. *)
Definition request_plan (s : ScriptName) : list (Method * string) :=
  match s with
  | K6Module1 =>
      [ (GET, API ++ "/api/serialcode/get-serial-code-details-data");
        (POST, API ++ "/api/serialcode/generate");
        (GET, API ++ "/api/serialcode/get-serial-code-headers-data");
        (GET, API ++ "/api/master/get-plants-data");
        (GET, API ++ "/api/master/get-product-categories-data");
        (GET, API ++ "/api/master/get-procurement-types-data") ]
  | K6Script =>
      [ (GET, API ++ "/api/serialcode/get-serial-codes-data");
        (GET, API ++ "/api/serialcode/get-serial-code-headers-data");
        (POST, API ++ "/api/serialcode/generate") ]
  | K6Module2 =>
      [ (POST, API ++ "/api/SmartPrint");
        (GET, API ++ "/api/smartprint/get-smart-print-headers-data");
        (GET, API ++ "/api/smartprint/get-smart-print-details-data") ]
  | K6SmartScan =>
      [ (POST, API ++ "/api/smartscancapture/generate");
        (POST, API ++ "/api/smartscancapture/mrp-reprint");
        (GET, API ++ "/api/smartscancapture/get-po-headers-data");
        (GET, API ++ "/api/smartscancapture/get-po-details-data") ]
  end.

(** Method and endpoint of a request. *)
Definition called (req : Request) : Method * string := (method req, endpoint (url req)).

(** A check label that speaks of the status. *)
Definition names_status (label : string) : bool :=
  match index 0 "status" label with
  | Some _ => true
  | None => false
  end.

(** [has c s]: the character [c] occurs in [s]. *)
Fixpoint has (c : ascii) (s : string) : bool :=
  match s with
  | EmptyString => false
  | String c' rest => Ascii.eqb c c' || has c rest
  end.

(** A server that answers every call with status 200 and an empty body,
    one that answers with status 200 and the body [ok], and one that
    cannot be reached: every call fails without a response. *)
Definition empty_ok_world : World :=
  mkWorld (fun _ _ => mkReply 200 (Some EmptyString) (S754_zero false))
          (fun _ => S754_zero false).

Definition ok_world : World :=
  mkWorld (fun _ _ => mkReply 200 (Some "ok") (S754_zero false)) (fun _ => S754_zero false).

Definition unreachable_world : World :=
  mkWorld (fun _ _ => mkReply 0 None (S754_zero false)) (fun _ => S754_zero false).


(** The first [check] call of k6-module1.js under [ok_world]. *)
Definition sample_response : Response :=
  exchange ok_world 0
    (mkRequest GET (Module1.BASE_URL ++ "/api/serialcode/get-serial-code-details-data")
               None json_headers).

Definition sample_checks : Checks :=
  [ ("GET details status is 200", fun r => Normal (status r =? 200));
    ("GET details has non-empty body", fun r => gt (prop_length (body r)) 0) ].

(** The number 1/2. *)
Definition one_half : Double.double := S754_finite false 4503599627370496 (-53).

(** The four requests of a smart-scan iteration and the responses to them. *)
Module SmartScanCalls.

Import SmartScanPayload SmartScan.

Section Iteration.

Variables (VU ITER : N) (w : World).

Definition generateRequest : Request :=
  mkRequest POST SMART_SCAN_CAPTURE_GENERATE_ENDPOINT (Some (generateOrderPayload VU ITER))
            (mkParams [("Content-Type", "application/json")]
                      [("name", "Smart Scan Generate POST")]).

Definition mrpRequest : Request :=
  mkRequest POST SMART_SCAN_CAPTURE_MRP_REPRINT_ENDPOINT
            (Some (generateMrpReprintPayload VU ITER))
            (mkParams [("Content-Type", "application/json")]
                      [("name", "Smart Scan MRP Reprint POST")]).

Definition headersRequest : Request :=
  mkRequest GET SMART_SCAN_CAPTURE_GET_HEADERS_ENDPOINT None
            (mkParams [] [("name", "Smart Scan GET PO Headers")]).

Definition detailsRequest : Request :=
  mkRequest GET SMART_SCAN_CAPTURE_GET_DETAILS_ENDPOINT None
            (mkParams [] [("name", "Smart Scan GET PO Details")]).

Definition resGenerate : Response := exchange w 0 generateRequest.
Definition resMrp : Response := exchange w 1 mrpRequest.
Definition resHeaders : Response := exchange w 2 headersRequest.
Definition resDetails : Response := exchange w 3 detailsRequest.

End Iteration.

End SmartScanCalls.

(** *** Further readings of a trace *)

(** The responses received, the samples added to trend metrics and the
    pauses taken, each in order. *)
Definition responses (t : list Event) : list Response :=
  flat_map (fun e => match e with EvHttp _ res => [res] | _ => [] end) t.

Definition trends (t : list Event) : list (string * Double.double) :=
  flat_map (fun e => match e with EvTrend metric v => [(metric, v)] | _ => [] end) t.

Definition sleeps (t : list Event) : list Z :=
  flat_map (fun e => match e with EvSleep n => [n] | _ => [] end) t.

(** The events after the first pause. *)
Fixpoint after_sleep (t : list Event) : list Event :=
  match t with
  | [] => []
  | EvSleep _ :: rest => rest
  | _ :: rest => after_sleep rest
  end.

(** The groups open at the end of a trace that starts inside [stack]
    (innermost first); [None] when a group is closed that is not the
    innermost open one. *)
Fixpoint nesting (stack : list string) (t : list Event) : option (list string) :=
  match t with
  | [] => Some stack
  | EvGroup name :: rest => nesting (name :: stack) rest
  | EvGroupEnd name :: rest =>
      match stack with
      | top :: below => if String.eqb name top then nesting below rest else None
      | [] => None
      end
  | _ :: rest => nesting stack rest
  end.

(** The groups around each request, and around each [check] call. *)
Fixpoint request_groups (stack : list string) (t : list Event) : list (list string) :=
  match t with
  | [] => []
  | EvGroup name :: rest => request_groups (name :: stack) rest
  | EvGroupEnd _ :: rest => request_groups (tl stack) rest
  | EvHttp _ _ :: rest => stack :: request_groups stack rest
  | _ :: rest => request_groups stack rest
  end.

Fixpoint check_groups (stack : list string) (t : list Event) : list (list string) :=
  match t with
  | [] => []
  | EvGroup name :: rest => check_groups (name :: stack) rest
  | EvGroupEnd _ :: rest => check_groups (tl stack) rest
  | EvCheck _ _ :: rest => stack :: check_groups stack rest
  | _ :: rest => check_groups stack rest
  end.

(** The responses handed to [check] before the next request is sent. *)
Fixpoint checked_before_next (t : list Event) : list Response :=
  match t with
  | [] => []
  | EvHttp _ _ :: _ => []
  | EvCheck res _ :: rest => res :: checked_before_next rest
  | _ :: rest => checked_before_next rest
  end.

(** Each response received, with the responses checked until the next
    request. *)
Fixpoint checked_per_exchange (t : list Event) : list (Response * list Response) :=
  match t with
  | [] => []
  | EvHttp _ res :: rest => (res, checked_before_next rest) :: checked_per_exchange rest
  | _ :: rest => checked_per_exchange rest
  end.

(** What the checks of a script ask of a response: the expected status,
    and a body unless the script is the smart-scan one and the request a
    POST. *)
Definition has_body (res : Response) : bool :=
  match body res with
  | Some b => Nat.ltb 0 (String.length b)
  | None => false
  end.

Definition healthy (s : ScriptName) (res : Response) : bool :=
  match method (request res), s with
  | GET, _ => (status res =? 200) && has_body res
  | POST, K6SmartScan => (status res =? 200) || (status res =? 201)
  | POST, _ => (status res =? 201) && has_body res
  end.

(** Whether the check on a response reads its body, and whether it can:
    only the smart-scan script leaves the body of its POST responses
    unread; a null body cannot be read. *)
Definition reads_body (s : ScriptName) (res : Response) : bool :=
  match method (request res), s with
  | POST, K6SmartScan => false
  | _, _ => true
  end.

Definition readable (s : ScriptName) (res : Response) : bool :=
  negb (reads_body s res) || match body res with Some _ => true | None => false end.

(** The metrics k6 provides on its own, as far as the scripts set
    thresholds on them. *)
Definition builtin_metrics : list string :=
  [ "http_req_failed"; "http_req_duration"; "checks" ].

(** Decimal digits. *)
Definition is_digit (c : ascii) : bool :=
  let n := nat_of_ascii c in Nat.leb 48 n && Nat.leb n 57.

Fixpoint all_digits (s : string) : bool :=
  match s with
  | EmptyString => true
  | String c rest => is_digit c && all_digits rest
  end.

(** The text left after the first [n] characters, and the leading run of
    digits of a text. *)
Fixpoint drop (n : nat) (s : string) : string :=
  match n, s with
  | O, _ => s
  | S n', String _ rest => drop n' rest
  | S _, EmptyString => EmptyString
  end.

Fixpoint leading_digits (s : string) : string :=
  match s with
  | EmptyString => EmptyString
  | String c rest => if is_digit c then String c (leading_digits rest) else EmptyString
  end.

(** A random number that falls into the middle of the page [p]:
    (2p - 1) / 200, rounded to binary64. *)
Definition middle_of_page (p : Z) : Double.double :=
  SFdiv Double.prec Double.emax (Double.of_Z (2 * p - 1)) (Double.of_Z 200).

(** floor(100 * r) + 1 with the product taken exactly, without the
    rounding to binary64. *)
Definition exact_page (r : Double.double) : Z :=
  match r with
  | S754_finite s m e => Z.shiftl (100 * cond_Zopp s (Zpos m)) e + 1
  | _ => 1
  end.

(** The binary64 encoding of a positive integer below 2^53: the integer
    shifted left until it has 53 bits. *)
Definition canonical (v : positive) : Double.double :=
  let k := 53 - Zdigits2 (Zpos v) in
  S754_finite false (Z.to_pos (Zpos v * 2 ^ k)) (- k).

(** Numbers to try the text of a number on: 10^21, 2^60, 1/10, 1/10^7,
    0.29 * 100, the least positive number and 123456 / 1000. *)
Definition sample_numbers : list Double.double :=
  [ Double.of_Z (10 ^ 21);
    Double.of_Z (2 ^ 60);
    SFdiv Double.prec Double.emax (Double.of_Z 1) (Double.of_Z 10);
    SFdiv Double.prec Double.emax (Double.of_Z 1) (Double.of_Z (10 ^ 7));
    Double.mul (S754_finite false 5224175567749775 (-54)) (Double.of_Z 100);
    S754_finite false 1 (-1074);
    SFdiv Double.prec Double.emax (Double.of_Z 123456) (Double.of_Z 1000) ].

(** Integers below 2^53 in their binary64 encoding. *)
Definition sample_integers : list positive :=
  [ 1; 7; 10; 1200; 20000; 10000000000; 9007199254740991 ]%positive.

(** * Properties *)

(** ** Decimal digits and string facts *)

Lemma dec_inj (a b : N) : dec a = dec b -> a = b.
Proof.
  unfold dec. intro E.
  assert (U : Some (N.to_uint a) = Some (N.to_uint b)).
  { rewrite <- (NilEmpty.usu (N.to_uint a)), <- (NilEmpty.usu (N.to_uint b)).
    now rewrite E. }
  injection U as U.
  rewrite <- (DecimalN.Unsigned.of_to a), <- (DecimalN.Unsigned.of_to b).
  now rewrite U.
Qed.

Lemma uint_no_dash (d : Decimal.uint) : has "-" (NilEmpty.string_of_uint d) = false.
Proof. induction d; simpl; auto. Qed.

Lemma dec_no_dash (n : N) : has "-" (dec n) = false.
Proof. apply uint_no_dash. Qed.

Lemma append_cancel_l (p a b : string) : p ++ a = p ++ b -> a = b.
Proof.
  induction p as [|c p IH]; simpl; intro E; [assumption|].
  injection E as E. auto.
Qed.

(** Two texts cut at their first dash agree piecewise. *)
Lemma split_at_dash (a a' b b' : string) :
  has "-" a = false -> has "-" a' = false ->
  a ++ String "-" b = a' ++ String "-" b' -> a = a' /\ b = b'.
Proof.
  revert a'. induction a as [|c a IH]; intros [|c' a'] Ha Ha' E; simpl in *.
  - injection E as E. auto.
  - injection E as Ec _. subst c'. simpl in Ha'. discriminate.
  - injection E as Ec _. subst c. simpl in Ha. discriminate.
  - injection E as Ec E. subst c'.
    apply orb_false_iff in Ha as [_ Ha]. apply orb_false_iff in Ha' as [_ Ha'].
    destruct (IH a' Ha Ha' E) as [-> ->]. auto.
Qed.

(** ** Rounding of products

    Facts about the rounding of binary64 products, down to the shifts that
    [SFmul] performs on the mantissa. *)

Module DoubleFacts.
Import Double.

Lemma digits2_size (p : positive) : digits2_pos p = Pos.size p.
Proof. induction p; simpl; congruence. Qed.

Lemma Zdigits2_bounds (p : positive) :
  2 ^ (Zdigits2 (Zpos p) - 1) <= Zpos p < 2 ^ Zdigits2 (Zpos p).
Proof.
  unfold Zdigits2. rewrite digits2_size.
  assert (L : Z.pos (2 ^ Pos.size p) <= Z.pos p~0) by exact (Pos.size_le p).
  assert (G : Z.pos p < Z.pos (2 ^ Pos.size p)) by exact (Pos.size_gt p).
  rewrite Pos2Z.inj_pow in L, G.
  change (Z.pos p~0) with (2 * Z.pos p) in L.
  split; [|exact G].
  replace (Z.pos (Pos.size p)) with (Z.succ (Z.pos (Pos.size p) - 1)) in L by lia.
  rewrite Z.pow_succ_r in L by lia. lia.
Qed.

Lemma Zdigits2_le (x n : Z) : 0 <= n -> 0 <= x < 2 ^ n -> Zdigits2 x <= n.
Proof.
  intros Hn [H0 Hx]. destruct x as [|p|p]; [simpl; lia| |lia].
  destruct (Z.le_gt_cases (Zdigits2 (Zpos p)) n) as [|G]; [assumption|].
  pose proof (Zdigits2_bounds p) as [L _].
  assert (2 ^ n <= 2 ^ (Zdigits2 (Z.pos p) - 1)) by (apply Z.pow_le_mono_r; lia).
  lia.
Qed.

Lemma shr_1_m (mrs : shr_record) : 0 <= shr_m mrs -> shr_m (shr_1 mrs) = shr_m mrs / 2.
Proof.
  destruct mrs as [m r s]. cbn [shr_m]. intro H.
  destruct m as [|[p|p|]|p]; cbn [shr_1 shr_m]; try reflexivity; try lia.
  - apply Z.div_unique with 1; lia.
  - apply Z.div_unique with 0; lia.
Qed.

Lemma iter_pos_shr_1_m (p : positive) (mrs : shr_record) :
  0 <= shr_m mrs ->
  shr_m (iter_pos shr_1 p mrs) = shr_m mrs / 2 ^ Zpos p.
Proof.
  revert mrs. induction p as [p IH|p IH|]; intros mrs H; simpl iter_pos.
  - assert (H1 : 0 <= shr_m (shr_1 mrs)) by (rewrite shr_1_m by assumption; apply Z.div_pos; lia).
    assert (H2 : 0 <= shr_m (iter_pos shr_1 p (shr_1 mrs))) by (rewrite IH by assumption; apply Z.div_pos; lia).
    rewrite IH, IH, shr_1_m by assumption.
    rewrite !Z.div_div by lia. f_equal.
    replace (Z.pos p~1) with (1 + Z.pos p + Z.pos p) by lia.
    rewrite !Z.pow_add_r by lia. change (2 ^ 1) with 2. ring.
  - assert (H2 : 0 <= shr_m (iter_pos shr_1 p mrs)) by (rewrite IH by assumption; apply Z.div_pos; lia).
    rewrite IH, IH by assumption.
    rewrite !Z.div_div by lia. f_equal.
    replace (Z.pos p~0) with (Z.pos p + Z.pos p) by lia.
    rewrite !Z.pow_add_r by lia. change (2 ^ 1) with 2. ring.
  - rewrite shr_1_m by assumption. reflexivity.
Qed.

(** A right shift divides the mantissa by a power of two and raises the exponent. *)
Lemma shr_m_e (mrs : shr_record) (e n : Z) :
  0 <= shr_m mrs ->
  shr_m (fst (shr mrs e n)) = shr_m mrs / 2 ^ Z.max n 0 /\
  snd (shr mrs e n) = e + Z.max n 0.
Proof.
  intro H. destruct n as [|p|p]; simpl.
  - rewrite Z.div_1_r. lia.
  - rewrite iter_pos_shr_1_m by assumption. split; [reflexivity | lia].
  - rewrite Z.div_1_r. lia.
Qed.

Lemma round_nearest_even_bounds (m : Z) (l : location) :
  m <= round_nearest_even m l <= m + 1.
Proof.
  destruct l as [|[| |]]; simpl; try lia. destruct (Z.even m); lia.
Qed.


(** The arithmetic behind the product with 100: the mantissa of 100 is
    25 * 2^48 at exponent -46, so r * 100 is m * 25 * 2^48 at exponent
    e - 46, to be shifted right by k places. *)
Lemma product_room (m e d k : Z) :
  0 < m < 2 ^ 53 ->
  -1074 <= e <= -53 ->
  (e = -53 -> m <= 2 ^ 53 - 2) ->
  2 ^ (d - 1) <= m * (25 * 2 ^ 48) ->
  k = Z.max (Z.max (d + (e - 46) - 53) (-1074) - (e - 46)) 0 ->
  m * (25 * 2 ^ 48) + 2 ^ k < 100 * 2 ^ (46 - e).
Proof.
  intros Hm He Htop Hd Hk.
  set (A := 2 ^ (- e - 53)).
  assert (HA : 1 <= A) by (apply (Z.pow_le_mono_r 2 0); lia).
  assert (HA2 : e <= -54 -> 2 <= A) by (intro; apply (Z.pow_le_mono_r 2 1); lia).
  replace (46 - e) with (99 + (- e - 53)) by lia.
  rewrite Z.pow_add_r by lia. fold A.
  assert (Gap : 2 <= 2 ^ 53 * A - m).
  { destruct (Z.eq_dec e (-53)) as [->|Hne].
    - specialize (Htop eq_refl). change A with 1. lia.
    - assert (2 <= A) by (apply HA2; lia). nia. }
  assert (Kcases : k = 0 \/ (k = d - 53 /\ 0 < k) \/ (k = - 1028 - e /\ 0 < k)) by lia.
  destruct Kcases as [-> | [[-> Hpos] | [-> Hpos]]].
  - change (2 ^ 0) with 1. nia.
  - replace (d - 1) with (d - 53 + 52) in Hd by lia.
    rewrite Z.pow_add_r in Hd by lia.
    assert (0 < 2 ^ (d - 53)) by (apply Z.pow_pos_nonneg; lia).
    nia.
  - assert (EA : A = 2 ^ (- 1028 - e) * 2 ^ 975).
    { unfold A. rewrite <- Z.pow_add_r by lia. f_equal. lia. }
    assert (0 < 2 ^ (- 1028 - e)) by (apply Z.pow_pos_nonneg; lia).
    assert (2 <= A) by (apply HA2; lia).
    nia.
Qed.

Lemma of_Z_100 : of_Z 100 = hundred.
Proof. vm_compute. reflexivity. Qed.

Lemma of_Z_0 : of_Z 0 = S754_zero false.
Proof. reflexivity. Qed.

Lemma of_Z_1 : of_Z 1 = S754_finite false 4503599627370496 (-52).
Proof. vm_compute. reflexivity. Qed.

Lemma floor_times_100_rounded (m : positive) (e : Z) :
  Zpos m < 2 ^ 53 ->
  -1074 <= e <= -53 ->
  (e = -53 -> Zpos m <= 2 ^ 53 - 2) ->
  is_finite (mul (S754_finite false m e) hundred) = true /\
  0 <= Math_floor (mul (S754_finite false m e) hundred) <= 99.
Proof.
  intros Hm He Htop.
  unfold mul, hundred, SFmul, binary_round_aux, shr_fexp.
  cbn [xorb shr_record_of_loc].
  set (P := (m * 7036874417766400)%positive).
  set (E := e + -46).
  assert (HP : Zpos P = Zpos m * (25 * 2 ^ 48))
    by (unfold P; rewrite Pos2Z.inj_mul; reflexivity).
  pose proof (Zdigits2_bounds P) as [Dlo Dhi].
  set (d := Zdigits2 (Zpos P)) in *.
  assert (Hd106 : d <= 106).
  { apply Zdigits2_le; [lia|]. split; [lia|]. rewrite HP.
    change (2 ^ 106) with (2 ^ 53 * (32 * 2 ^ 48)). nia. }
  (* first shift *)
  set (n1 := fexp prec emax (d + E) - E).
  pose proof (shr_m_e (Build_shr_record (Zpos P) false false) E n1) as S1.
  destruct (shr (Build_shr_record (Zpos P) false false) E n1) as [mrs1 e1].
  cbn [fst snd shr_m] in S1. destruct S1 as [M1 E1]; [lia|].
  set (k1 := Z.max n1 0) in *.
  assert (Hn1 : n1 = Z.max (d + E - 53) (-1074) - E) by reflexivity.
  assert (Hk1 : 0 <= k1) by lia.
  assert (Room : Zpos P + 2 ^ k1 < 100 * 2 ^ (46 - e)).
  { rewrite HP. apply product_room with (d := d); lia. }
  assert (Hm1 : 0 <= shr_m mrs1 < 2 ^ 53).
  { rewrite M1. split; [apply Z.div_pos; lia|].
    apply Z.div_lt_upper_bound; [lia|].
    rewrite <- Z.pow_add_r by lia.
    apply Z.lt_le_trans with (1 := Dhi). apply Z.pow_le_mono_r; lia. }
  (* rounding *)
  pose proof (round_nearest_even_bounds (shr_m mrs1) (loc_of_shr_record mrs1)) as R.
  set (m2 := round_nearest_even (shr_m mrs1) (loc_of_shr_record mrs1)) in *.
  assert (Hd2 : Zdigits2 m2 <= 54).
  { apply Zdigits2_le; [lia|]. change (2 ^ 54) with (2 * 2 ^ 53). lia. }
  (* second shift *)
  set (n2 := fexp prec emax (Zdigits2 m2 + e1) - e1).
  pose proof (shr_m_e (Build_shr_record m2 false false) e1 n2) as S2.
  destruct (shr (Build_shr_record m2 false false) e1 n2) as [mrs2 e2].
  cbn [fst snd shr_m] in S2. destruct S2 as [M2 E2]; [lia|].
  set (k2 := Z.max n2 0) in *.
  assert (Hn2 : n2 = Z.max (Zdigits2 m2 + e1 - 53) (-1074) - e1) by reflexivity.
  assert (Hk2 : 0 <= k2) by lia.
  assert (He2 : e2 <= -45) by (unfold E in *; lia).
  assert (Hm3 : 0 <= shr_m mrs2) by (rewrite M2; apply Z.div_pos; lia).
  (* the result *)
  assert (Below : shr_m mrs2 < 100 * 2 ^ (- e2)).
  { assert (P1 : 0 < 2 ^ k1) by (apply Z.pow_pos_nonneg; lia).
    assert (P2 : 0 < 2 ^ k2) by (apply Z.pow_pos_nonneg; lia).
    assert (L2 : 2 ^ k2 * shr_m mrs2 <= m2)
      by (rewrite M2; apply Z.mul_div_le; lia).
    assert (L1 : 2 ^ k1 * shr_m mrs1 <= Zpos P)
      by (rewrite M1; apply Z.mul_div_le; lia).
    assert (EQ : 46 - e = - e2 + (k1 + k2)) by (unfold E in *; lia).
    rewrite EQ in Room. rewrite !Z.pow_add_r in Room by lia.
    set (X := 2 ^ k1) in *. set (Y := 2 ^ k2) in *. set (W := 2 ^ (- e2)) in *.
    assert (C1 : X * (Y * shr_m mrs2) <= X * m2) by (apply Z.mul_le_mono_nonneg_l; lia).
    assert (C2 : X * m2 <= X * (shr_m mrs1 + 1)) by (apply Z.mul_le_mono_nonneg_l; lia).
    apply Z.mul_lt_mono_pos_l with (p := X * Y); [lia|].
    replace (X * Y * (100 * W)) with (100 * (W * (X * Y))) by ring.
    replace (X * Y * shr_m mrs2) with (X * (Y * shr_m mrs2)) by ring.
    lia. }
  destruct (shr_m mrs2) as [|m3|m3]; [cbn; lia | | lia].
  destruct (e2 <=? emax - prec) eqn:Le; [|apply Z.leb_gt in Le; unfold emax, prec in Le; lia].
  split; [reflexivity|].
  cbn [Math_floor]. unfold Zfloor. cbn [cond_Zopp].
  rewrite Z.shiftl_div_pow2 by lia.
  assert (Wpos : 0 < 2 ^ (- e2)) by (apply Z.pow_pos_nonneg; lia).
  split; [apply Z.div_pos; lia|].
  apply Z.lt_succ_r. apply Z.div_lt_upper_bound; lia.
Qed.

(** The product of a positive number below 1 with 100 is a finite number
    whose floor lies between 0 and 99. *)
Lemma floor_times_100 (m : positive) (e : Z) :
  Zpos m < 2 ^ 53 ->
  -1074 <= e <= -53 ->
  is_finite (mul (S754_finite false m e) hundred) = true /\
  0 <= Math_floor (mul (S754_finite false m e) hundred) <= 99.
Proof.
  intros Hm He.
  destruct (Z.eq_dec (Zpos m) (2 ^ 53 - 1)) as [Top|NotTop].
  - destruct (Z.eq_dec e (-53)) as [->|Hne].
    + replace m with 9007199254740991%positive by lia. vm_compute.
      split; [reflexivity | split; discriminate].
    + apply floor_times_100_rounded; lia.
  - apply floor_times_100_rounded; lia.
Qed.


(** What the contract of [Math.random] leaves: a zero, or a positive
    number with a mantissa below 2^53 and an exponent of at most -53. *)
Lemma unit_interval_cases (r : double) :
  in_unit_interval r = true ->
  (exists s : bool, r = S754_zero s) \/
  (exists (m : positive) (e : Z),
      r = S754_finite false m e /\ Zpos m < 2 ^ 53 /\ -1074 <= e <= -53).
Proof.
  unfold in_unit_interval. rewrite of_Z_0, of_Z_1. intro H.
  apply andb_true_iff in H as [H Hlt]. apply andb_true_iff in H as [Hv Hle].
  destruct r as [s|s| |s m e]; try (left; now exists s); try discriminate Hlt.
  - destruct s; discriminate.
  - right. exists m, e.
    destruct s; [discriminate Hle|].
    unfold valid, valid_binary, bounded, canonical_mantissa in Hv.
    apply andb_true_iff in Hv as [Hc _]. apply Z.eqb_eq in Hc.
    unfold fexp, emin, prec, emax in Hc.
    pose proof (Zdigits2_bounds m) as [Dlo Dhi]. cbn [Zdigits2] in Dlo, Dhi.
    set (d := Z.pos (digits2_pos m)) in *.
    assert (Hd : d <= 53) by lia.
    assert (Hm : Z.pos m < 2 ^ 53)
      by (apply Z.lt_le_trans with (1 := Dhi); apply Z.pow_le_mono_r; lia).
    split; [reflexivity|]. split; [exact Hm|].
    split; [lia|].
    unfold ltb, SFltb in Hlt. cbn [SFcompare] in Hlt.
    destruct (Z.compare_spec e (-52)) as [He|He|He]; [|lia|discriminate Hlt].
    exfalso. subst e.
    assert (d = 53) by lia.
    replace (d - 1) with 52 in Dlo by lia.
    rewrite Pos.compare_cont_spec in Hlt.
    destruct (Pos.compare_spec m 4503599627370496) as [C|C|C]; try discriminate Hlt.
    apply Pos2Z.pos_lt_pos in C. clear - Dlo C. lia.
Qed.

(** For a random number [r], the product [r * 100] is a zero or a finite
    number, and its floor lies between 0 and 99. *)
Lemma random_times_100_finite (r : double) :
  in_unit_interval r = true ->
  is_finite (mul r (of_Z 100)) = true.
Proof.
  intro H. rewrite of_Z_100.
  destruct (unit_interval_cases r H) as [[s ->] | (m & e & -> & Hm & He)].
  - reflexivity.
  - now apply floor_times_100.
Qed.

Lemma random_times_100_floor (r : double) :
  in_unit_interval r = true ->
  0 <= Math_floor (mul r (of_Z 100)) <= 99.
Proof.
  intro H. rewrite of_Z_100.
  destruct (unit_interval_cases r H) as [[s ->] | (m & e & -> & Hm & He)].
  - cbn. lia.
  - now apply floor_times_100.
Qed.

End DoubleFacts.

Import DoubleFacts.

(** ** Integers in binary64

    Below 2^53 the conversion of an integer, the product and the sum of
    integers are exact, and the text of the number is the decimal digits
    of the integer. *)

Module IntegerFacts.
Import Double DoubleFacts.

Lemma Zdigits2_pos (p : positive) : 1 <= Zdigits2 (Zpos p).
Proof. unfold Zdigits2. lia. Qed.

Lemma Zdigits2_unique (p : positive) (n : Z) :
  2 ^ (n - 1) <= Zpos p < 2 ^ n -> Zdigits2 (Zpos p) = n.
Proof.
  intros [L U].
  pose proof (Zdigits2_bounds p) as [Dlo Dhi].
  pose proof (Zdigits2_pos p) as D1.
  set (d := Zdigits2 (Zpos p)) in *.
  destruct (Z.lt_trichotomy d n) as [C | [C | C]]; [|assumption|].
  - assert (2 ^ d <= 2 ^ (n - 1)) by (apply Z.pow_le_mono_r; lia). lia.
  - destruct (Z.lt_ge_cases n 0) as [N | N].
    + rewrite Z.pow_neg_r in U by assumption. lia.
    + assert (2 ^ n <= 2 ^ (d - 1)) by (apply Z.pow_le_mono_r; lia). lia.
Qed.

Lemma iter_xO (d m : positive) : Zpos (Pos.iter xO m d) = Zpos m * 2 ^ Zpos d.
Proof.
  induction d as [|d IH] using Pos.peano_ind.
  - cbn [Pos.iter]. change (2 ^ 1) with 2. lia.
  - rewrite Pos.iter_succ, Pos2Z.inj_xO, IH, Pos2Z.inj_succ, Z.pow_succ_r by lia. ring.
Qed.

Lemma shr_1_even (q : Z) :
  0 <= q ->
  shr_1 (Build_shr_record (2 * q) false false) = Build_shr_record q false false.
Proof. intro H. destruct q as [|p|p]; [reflexivity | reflexivity | lia]. Qed.

(** Shifting out zeros loses nothing. *)
Lemma iter_pos_shr_1_exact (p : positive) (q : Z) :
  0 <= q ->
  iter_pos shr_1 p (Build_shr_record (2 ^ Zpos p * q) false false)
  = Build_shr_record q false false.
Proof.
  revert q. induction p as [p IH|p IH|]; intros q H; cbn [iter_pos].
  - assert (P : 0 < 2 ^ Zpos p) by (apply Z.pow_pos_nonneg; lia).
    replace (2 ^ Zpos p~1 * q) with (2 * (2 ^ Zpos p * (2 ^ Zpos p * q))).
    + rewrite shr_1_even by nia. rewrite IH by nia. apply IH. assumption.
    + replace (Zpos p~1) with (1 + Zpos p + Zpos p) by lia.
      rewrite !Z.pow_add_r by lia. change (2 ^ 1) with 2. ring.
  - assert (P : 0 < 2 ^ Zpos p) by (apply Z.pow_pos_nonneg; lia).
    replace (2 ^ Zpos p~0 * q) with (2 ^ Zpos p * (2 ^ Zpos p * q)).
    + rewrite IH by nia. apply IH. assumption.
    + replace (Zpos p~0) with (Zpos p + Zpos p) by lia.
      rewrite !Z.pow_add_r by lia. ring.
  - change (2 ^ 1) with 2. apply shr_1_even. assumption.
Qed.

Lemma round_aux_exact (M v : positive) (j : Z) :
  Zpos v < 2 ^ 53 ->
  0 <= j ->
  Zpos M = 2 ^ j * (Zpos v * 2 ^ (53 - Zdigits2 (Zpos v))) ->
  binary_round_aux prec emax false (Zpos M) (- (53 - Zdigits2 (Zpos v) + j)) loc_Exact
  = canonical v.
Proof.
  intros Hv Hj HM. unfold canonical. cbv zeta.
  pose proof (Zdigits2_bounds v) as [Dlo Dhi].
  pose proof (Zdigits2_pos v) as D1.
  assert (D53 : Zdigits2 (Zpos v) <= 53) by (apply Zdigits2_le; lia).
  set (d := Zdigits2 (Zpos v)) in *.
  set (k := 53 - d) in *.
  assert (Hk : 0 <= k <= 52) by lia.
  assert (Pk : 0 < 2 ^ k) by (apply Z.pow_pos_nonneg; lia).
  assert (Pj : 0 < 2 ^ j) by (apply Z.pow_pos_nonneg; lia).
  set (m1 := Zpos v * 2 ^ k) in *.
  assert (Hm1 : 2 ^ 52 <= m1 < 2 ^ 53).
  { assert (E52 : 2 ^ 52 = 2 ^ (d - 1) * 2 ^ k)
      by (rewrite <- Z.pow_add_r by lia; f_equal; lia).
    assert (E53 : 2 ^ 53 = 2 ^ d * 2 ^ k)
      by (rewrite <- Z.pow_add_r by lia; f_equal; lia).
    rewrite E52, E53. unfold m1. split.
    - apply Z.mul_le_mono_nonneg_r; lia.
    - apply Z.mul_lt_mono_pos_r; lia. }
  assert (Em1 : m1 = Zpos (Z.to_pos m1)) by (rewrite Z2Pos.id; lia).
  assert (DM : Zdigits2 (Zpos M) = 53 + j).
  { apply Zdigits2_unique. rewrite HM.
    replace (53 + j - 1) with (j + 52) by lia. replace (53 + j) with (j + 53) by lia.
    rewrite !Z.pow_add_r by lia. split.
    - apply Z.mul_le_mono_nonneg_l; lia.
    - apply Z.mul_lt_mono_pos_l; lia. }
  assert (D1' : Zdigits2 m1 = 53).
  { rewrite Em1. apply Zdigits2_unique. rewrite <- Em1. exact Hm1. }
  unfold binary_round_aux, shr_fexp. rewrite DM.
  replace (fexp prec emax (53 + j + - (k + j)) - - (k + j)) with j
    by (unfold fexp, emin, prec, emax; lia).
  cbn [shr_record_of_loc].
  assert (S1 : shr (Build_shr_record (Zpos M) false false) (- (k + j)) j
               = (Build_shr_record m1 false false, - k)).
  { destruct j as [|p|p]; [| |lia].
    - cbn [shr]. rewrite HM. change (2 ^ 0) with 1. f_equal; [f_equal|]; lia.
    - cbn [shr]. rewrite HM, iter_pos_shr_1_exact by lia. f_equal. lia. }
  rewrite S1. cbn [shr_m loc_of_shr_record round_nearest_even].
  rewrite D1'.
  replace (fexp prec emax (53 + - k) - - k) with 0
    by (unfold fexp, emin, prec, emax; lia).
  cbn [shr_record_of_loc shr shr_m].
  rewrite Em1 at 1.
  replace (- k <=? emax - prec) with true
    by (symmetry; apply Z.leb_le; unfold emax, prec; lia).
  reflexivity.
Qed.

Lemma round_exact (M v : positive) (E : Z) :
  Zpos v < 2 ^ 53 ->
  E <= 0 ->
  Zpos M = Zpos v * 2 ^ (- E) ->
  binary_round prec emax false M E = canonical v.
Proof.
  intros Hv HE HM.
  pose proof (Zdigits2_bounds v) as [Dlo Dhi].
  pose proof (Zdigits2_pos v) as D1.
  assert (D53 : Zdigits2 (Zpos v) <= 53) by (apply Zdigits2_le; lia).
  assert (PE : 0 < 2 ^ (- E)) by (apply Z.pow_pos_nonneg; lia).
  assert (DM : Zdigits2 (Zpos M) = Zdigits2 (Zpos v) + - E).
  { apply Zdigits2_unique. rewrite HM.
    replace (Zdigits2 (Zpos v) + - E - 1) with (Zdigits2 (Zpos v) - 1 + - E) by lia.
    rewrite !Z.pow_add_r by lia. split.
    - apply Z.mul_le_mono_nonneg_r; lia.
    - apply Z.mul_lt_mono_pos_r; lia. }
  unfold binary_round.
  change (Zpos (digits2_pos M)) with (Zdigits2 (Zpos M)). rewrite DM.
  set (d := Zdigits2 (Zpos v)) in *.
  replace (fexp prec emax (d + - E + E)) with (- (53 - d))
    by (unfold fexp, emin, prec, emax; lia).
  unfold shl_align.
  destruct (- (53 - d) - E) as [|p|p] eqn:Diff.
  - replace E with (- (53 - d + 0)) by lia.
    apply round_aux_exact; [assumption | lia |]. fold d.
    rewrite HM. change (2 ^ 0) with 1. replace (- E) with (53 - d) by lia. ring.
  - replace E with (- (53 - d + Zpos p)) by lia.
    apply round_aux_exact; [assumption | lia |]. fold d.
    rewrite HM. replace (- E) with (Zpos p + (53 - d)) by lia.
    rewrite Z.pow_add_r by lia. ring.
  - replace (- (53 - d)) with (- (53 - d + 0)) by lia.
    apply round_aux_exact; [assumption | lia |]. fold d.
    rewrite iter_xO, HM. change (2 ^ 0) with 1.
    replace (53 - d) with (- E + Zpos p) by lia.
    rewrite Z.pow_add_r by lia. ring.
Qed.

Lemma of_N_pos (v : positive) : Zpos v < 2 ^ 53 -> of_N (Npos v) = canonical v.
Proof.
  intro H. unfold of_N, of_Z. cbn [Z.of_N binary_normalize].
  apply round_exact; [assumption | lia |]. change (2 ^ (- 0)) with 1. lia.
Qed.

Lemma canonical_eq (v : positive) :
  canonical v
  = S754_finite false (Z.to_pos (Zpos v * 2 ^ (53 - Zdigits2 (Zpos v))))
                (- (53 - Zdigits2 (Zpos v))).
Proof. reflexivity. Qed.

Lemma canonical_value (v : positive) :
  Zpos v < 2 ^ 53 ->
  let k := 53 - Zdigits2 (Zpos v) in
  0 <= k /\ Zpos (Z.to_pos (Zpos v * 2 ^ k)) = Zpos v * 2 ^ k.
Proof.
  intro Hv. cbv zeta.
  assert (D53 : Zdigits2 (Zpos v) <= 53) by (apply Zdigits2_le; lia).
  split; [lia|].
  assert (0 < 2 ^ (53 - Zdigits2 (Zpos v))) by (apply Z.pow_pos_nonneg; lia).
  rewrite Z2Pos.id; lia.
Qed.

(** The product of two integers has at least as many bits as both
    together, less one. *)
Lemma Zdigits2_mul (a b : positive) :
  Zdigits2 (Zpos a) + Zdigits2 (Zpos b) - 1 <= Zdigits2 (Zpos (a * b)).
Proof.
  pose proof (Zdigits2_bounds a) as [La _].
  pose proof (Zdigits2_bounds b) as [Lb _].
  pose proof (Zdigits2_bounds (a * b)) as [_ U].
  pose proof (Zdigits2_pos a). pose proof (Zdigits2_pos b).
  pose proof (Zdigits2_pos (a * b)).
  set (da := Zdigits2 (Zpos a)) in *. set (db := Zdigits2 (Zpos b)) in *.
  set (d := Zdigits2 (Zpos (a * b))) in *.
  destruct (Z.le_gt_cases (da + db - 1) d) as [|G]; [assumption|].
  assert (P : 2 ^ d <= 2 ^ (da - 1 + (db - 1))) by (apply Z.pow_le_mono_r; lia).
  rewrite Z.pow_add_r in P by lia.
  rewrite Pos2Z.inj_mul in U.
  assert (0 < 2 ^ (da - 1)) by (apply Z.pow_pos_nonneg; lia).
  assert (0 < 2 ^ (db - 1)) by (apply Z.pow_pos_nonneg; lia).
  assert (2 ^ (da - 1) * 2 ^ (db - 1) <= Zpos a * Zpos b)
    by (apply Z.mul_le_mono_nonneg; lia).
  lia.
Qed.

(** Products and sums of integers are exact as long as the result stays
    below 2^53. *)
Lemma canonical_mul (a b : positive) :
  Zpos a * Zpos b < 2 ^ 53 ->
  mul (canonical a) (canonical b) = canonical (a * b).
Proof.
  intro H.
  assert (Ha : Zpos a < 2 ^ 53) by nia.
  assert (Hb : Zpos b < 2 ^ 53) by nia.
  assert (Hab : Zpos (a * b) < 2 ^ 53) by (rewrite Pos2Z.inj_mul; exact H).
  destruct (canonical_value a Ha) as [Ka Ma].
  destruct (canonical_value b Hb) as [Kb Mb].
  destruct (canonical_value (a * b) Hab) as [Kab _].
  pose proof (Zdigits2_mul a b) as Dm.
  rewrite (canonical_eq a), (canonical_eq b).
  unfold mul, SFmul. cbn [xorb].
  set (ka := 53 - Zdigits2 (Zpos a)) in *.
  set (kb := 53 - Zdigits2 (Zpos b)) in *.
  set (j := ka + kb - (53 - Zdigits2 (Zpos (a * b)))).
  replace (- ka + - kb) with (- (53 - Zdigits2 (Zpos (a * b)) + j)) by (unfold j; lia).
  assert (Hj : 0 <= j) by (unfold j, ka, kb; lia).
  apply round_aux_exact; [assumption | assumption |].
  set (kab := 53 - Zdigits2 (Zpos (a * b))) in *.
  assert (EP : 2 ^ ka * 2 ^ kb = 2 ^ j * 2 ^ kab)
    by (rewrite <- !Z.pow_add_r by lia; f_equal; unfold j; lia).
  rewrite Pos2Z.inj_mul, Ma, Mb, Pos2Z.inj_mul.
  transitivity (Zpos a * Zpos b * (2 ^ ka * 2 ^ kb)); [ring | rewrite EP; ring].
Qed.

Lemma shl_align_value (m : positive) (e ez : Z) :
  ez <= e -> Zpos (fst (shl_align m e ez)) = Zpos m * 2 ^ (e - ez).
Proof.
  intro H. unfold shl_align. destruct (ez - e) as [|p|p] eqn:D; cbn [fst].
  - replace (e - ez) with 0 by lia. change (2 ^ 0) with 1. lia.
  - lia.
  - rewrite iter_xO. f_equal. f_equal. lia.
Qed.

Lemma canonical_add (a b : positive) :
  Zpos a + Zpos b < 2 ^ 53 ->
  add (canonical a) (canonical b) = canonical (a + b).
Proof.
  intro H.
  assert (Ha : Zpos a < 2 ^ 53) by lia.
  assert (Hb : Zpos b < 2 ^ 53) by lia.
  assert (Hab : Zpos (a + b) < 2 ^ 53) by (rewrite Pos2Z.inj_add; exact H).
  destruct (canonical_value a Ha) as [Ka Ma].
  destruct (canonical_value b Hb) as [Kb Mb].
  rewrite (canonical_eq a), (canonical_eq b).
  unfold add, SFadd. cbv zeta. cbn [cond_Zopp].
  set (ka := 53 - Zdigits2 (Zpos a)) in *.
  set (kb := 53 - Zdigits2 (Zpos b)) in *.
  set (ez := Z.min (- ka) (- kb)).
  assert (Hez : ez <= - ka /\ ez <= - kb /\ ez <= 0) by (unfold ez; lia).
  pose proof (shl_align_value (Z.to_pos (Zpos a * 2 ^ ka)) (- ka) ez (proj1 Hez)) as Va.
  pose proof (shl_align_value (Z.to_pos (Zpos b * 2 ^ kb)) (- kb) ez (proj1 (proj2 Hez))) as Vb.
  rewrite Ma in Va. rewrite Mb in Vb.
  set (sa := fst (shl_align (Z.to_pos (Zpos a * 2 ^ ka)) (- ka) ez)) in *.
  set (sb := fst (shl_align (Z.to_pos (Zpos b * 2 ^ kb)) (- kb) ez)) in *.
  change (Zpos sa + Zpos sb) with (Zpos (sa + sb)).
  cbn [binary_normalize].
  apply round_exact; [assumption | lia |].
  assert (Ea : 2 ^ ka * 2 ^ (- ka - ez) = 2 ^ (- ez))
    by (rewrite <- Z.pow_add_r by lia; f_equal; lia).
  assert (Eb : 2 ^ kb * 2 ^ (- kb - ez) = 2 ^ (- ez))
    by (rewrite <- Z.pow_add_r by lia; f_equal; lia).
  rewrite !Pos2Z.inj_add, Va, Vb.
  transitivity (Zpos a * (2 ^ ka * 2 ^ (- ka - ez)) + Zpos b * (2 ^ kb * 2 ^ (- kb - ez)));
    [ring | rewrite Ea, Eb; ring].
Qed.

Lemma below_2_53 (n : N) : (n < 2 ^ 53)%N -> Z.of_N n < 2 ^ 53.
Proof. intro H. apply N2Z.inj_lt in H. exact H. Qed.

Lemma of_Z_10000 : of_Z 10000 = canonical 10000.
Proof. vm_compute. reflexivity. Qed.

Lemma mul_zero_l (v : positive) : mul (S754_zero false) (canonical v) = S754_zero false.
Proof. reflexivity. Qed.

Lemma add_zero_l (v : positive) : add (S754_zero false) (canonical v) = canonical v.
Proof. reflexivity. Qed.

Lemma add_zero_r (v : positive) : add (canonical v) (S754_zero false) = canonical v.
Proof. reflexivity. Qed.

(** Below 2^53 the numeric part of the order number is computed without
    rounding. *)
Lemma numericPart_exact (VU ITER : N) :
  (VU * 10000 + ITER < 2 ^ 53)%N ->
  SmartScanPayload.numericPart VU ITER = of_N (VU * 10000 + ITER).
Proof.
  intro H. apply below_2_53 in H. rewrite N2Z.inj_add, N2Z.inj_mul in H.
  unfold SmartScanPayload.numericPart. rewrite of_Z_10000.
  destruct VU as [|a]; destruct ITER as [|b]; cbn [Z.of_N] in H.
  - reflexivity.
  - change (0 * 10000 + Npos b)%N with (Npos b).
    rewrite of_N_pos by lia. reflexivity.
  - change (Npos a * 10000 + 0)%N with (Npos (a * 10000)).
    rewrite (of_N_pos a) by lia.
    rewrite canonical_mul by lia.
    rewrite (of_N_pos (a * 10000)) by lia. reflexivity.
  - change (Npos a * 10000 + Npos b)%N with (Npos (a * 10000 + b)).
    rewrite (of_N_pos a), (of_N_pos b) by lia.
    rewrite canonical_mul by lia.
    rewrite canonical_add by lia.
    rewrite of_N_pos by lia. reflexivity.
Qed.

(** An integer below 2^53 is written with all its digits. *)
Lemma toString_canonical (v : positive) :
  Zpos v < 2 ^ 53 -> Number_toString (canonical v) = dec (Npos v).
Proof.
  intro H. destruct (canonical_value v H) as [K M]. cbv zeta in K, M.
  rewrite canonical_eq. set (k := 53 - Zdigits2 (Zpos v)) in *.
  assert (P : 0 < 2 ^ k) by (apply Z.pow_pos_nonneg; lia).
  assert (I : integer_value (Z.to_pos (Zpos v * 2 ^ k)) (- k) = Some (Npos v)).
  { unfold integer_value. rewrite M. destruct (0 <=? - k) eqn:C.
    - apply Z.leb_le in C. replace k with 0 by lia. change (2 ^ 0) with 1.
      change (2 ^ (- 0)) with 1. f_equal. rewrite !Z.mul_1_r. reflexivity.
    - replace (- - k) with k by lia. rewrite Z.mod_mul by lia.
      cbn [Z.eqb]. rewrite Z.div_mul by lia. reflexivity. }
  unfold Number_toString, safe_integer. rewrite I.
  replace (Npos v <? 2 ^ 53)%N with true; [reflexivity|].
  symmetry. apply N.ltb_lt. apply N2Z.inj_lt. exact H.
Qed.

Lemma toString_of_N (n : N) : (n < 2 ^ 53)%N -> Number_toString (of_N n) = dec n.
Proof.
  intro H. apply below_2_53 in H. destruct n as [|v]; [reflexivity|].
  rewrite of_N_pos by exact H. apply toString_canonical. exact H.
Qed.

End IntegerFacts.

(** The search for the shortest digits gives the same text for such
    integers, and the known texts for other numbers. *)
Example shortest_text_of_integers :
  map (fun v => match canonical v with
                | S754_finite _ m e => Double.shortest_text m e
                | _ => EmptyString
                end) sample_integers
  = map (fun v => dec (Npos v)) sample_integers.
Proof. vm_compute. reflexivity. Qed.

Example text_of_numbers :
  map Double.Number_toString sample_numbers
  = [ "1e+21"; "1152921504606847000"; "0.1"; "1e-7"; "28.999999999999996";
      "5e-324"; "123.456" ].
Proof. vm_compute. reflexivity. Qed.

(** ** Identifiers in the smart-scan payloads *)

Module PayloadFacts.

Import SmartScanPayload IntegerFacts.

(** As long as the counters and the numeric part stay below 2^53 the two
    identifiers are made of the decimal digits of the integers. *)
Lemma uniqueOrderNumber_safe (VU ITER : N) :
  (VU * 10000 + ITER < 2 ^ 53)%N ->
  uniqueOrderNumber VU ITER = "123456789" ++ dec (VU * 10000 + ITER).
Proof.
  intro H. unfold uniqueOrderNumber.
  now rewrite numericPart_exact, toString_of_N.
Qed.

Lemma serialNumber_safe (VU ITER : N) :
  (VU < 2 ^ 53)%N -> (ITER < 2 ^ 53)%N ->
  serialNumber VU ITER = "P00302H4QhG6M1b00E-" ++ dec VU ++ "-" ++ dec ITER.
Proof.
  intros H1 H2. unfold serialNumber. now rewrite !toString_of_N.
Qed.

Lemma uniqueOrderNumber_inj (VU ITER VU' ITER' : N) :
  (VU * 10000 + ITER < 2 ^ 53)%N -> (VU' * 10000 + ITER' < 2 ^ 53)%N ->
  uniqueOrderNumber VU ITER = uniqueOrderNumber VU' ITER' ->
  (VU * 10000 + ITER = VU' * 10000 + ITER')%N.
Proof.
  intros H H' E. rewrite !uniqueOrderNumber_safe in E by assumption.
  apply append_cancel_l in E. now apply dec_inj.
Qed.

Lemma serialNumber_inj (VU ITER VU' ITER' : N) :
  (VU < 2 ^ 53)%N -> (ITER < 2 ^ 53)%N -> (VU' < 2 ^ 53)%N -> (ITER' < 2 ^ 53)%N ->
  serialNumber VU ITER = serialNumber VU' ITER' -> VU = VU' /\ ITER = ITER'.
Proof.
  intros H1 H2 H3 H4 E. rewrite !serialNumber_safe in E by assumption.
  apply append_cancel_l in E.
  change (dec VU ++ String "-" (dec ITER) = dec VU' ++ String "-" (dec ITER')) in E.
  apply split_at_dash in E; try apply dec_no_dash.
  destruct E as [E1 E2]. split; now apply dec_inj.
Qed.

(** C2 does not hold of the code: virtual user 1 in its iteration 10000
    and virtual user 2 in its iteration 0 are distinct (VU, ITER) pairs,
    and [generateOrderPayload] gives both the order number 12345678920000,
    in the order record and in the item. *)
Theorem C2_ordernumber_collision :
  (1, 10000)%N <> (2, 0)%N /\
  uniqueOrderNumber 1 10000 = uniqueOrderNumber 2 0 /\
  uniqueOrderNumber 1 10000 = "12345678920000" /\
  field "ordernumber" (orderRecord 1 10000) = field "ordernumber" (orderRecord 2 0) /\
  field "ordernumber" (orderItem 1 10000) = field "ordernumber" (orderItem 2 0).
Proof. split; [discriminate | repeat split; vm_compute; reflexivity]. Qed.

(** Above 2^53 the sum is rounded: iterations 992 and 993 of virtual user
    900719925475 get one order number.  From 10^21 on the number is
    written with an exponent. *)
Example order_number_rounded :
  uniqueOrderNumber 900719925475 992 = "1234567899007199254750992" /\
  uniqueOrderNumber 900719925475 993 = "1234567899007199254750992".
Proof. split; vm_compute; reflexivity. Qed.

Example order_number_with_exponent :
  uniqueOrderNumber 100000000000000000 0 = "1234567891e+21".
Proof. vm_compute. reflexivity. Qed.

Ltac by_property_name k :=
  repeat match goal with
         | |- context [String.eqb k ?name] =>
             destruct (String.eqb_spec k name); [subst k; try reflexivity; try congruence|]
         end;
  try reflexivity.

(** C9: the order payload is the serialisation of an object whose [order]
    array holds exactly one order record, whose [items] array holds exactly
    one item; both records carry the same order number, and every other
    property of either record has the same value for all (VU, ITER). *)
Theorem C9_order_payload_shape (VU ITER : N) :
  generateOrderPayload VU ITER = JSON_stringify (orderObject VU ITER) /\
  orderObject VU ITER = JObj [("order", JArr [orderRecord VU ITER])] /\
  field "items" (orderRecord VU ITER) = Some (JArr [orderItem VU ITER]) /\
  field "ordernumber" (orderRecord VU ITER) = Some (JStr (uniqueOrderNumber VU ITER)) /\
  field "ordernumber" (orderItem VU ITER) = Some (JStr (uniqueOrderNumber VU ITER)) /\
  NoDup (keys (orderRecord VU ITER)) /\
  NoDup (keys (orderItem VU ITER)) /\
  forall (VU' ITER' : N),
    keys (orderRecord VU' ITER') = keys (orderRecord VU ITER) /\
    keys (orderItem VU' ITER') = keys (orderItem VU ITER) /\
    forall k : string,
      k <> "ordernumber" ->
      (k <> "items" -> field k (orderRecord VU' ITER') = field k (orderRecord VU ITER)) /\
      field k (orderItem VU' ITER') = field k (orderItem VU ITER).
Proof.
  do 5 (split; [reflexivity|]).
  split; [|split].
  - cbn. repeat constructor; cbn; intuition discriminate.
  - cbn. repeat constructor; cbn; intuition discriminate.
  - intros VU' ITER'. do 2 (split; [reflexivity|]).
    intros k Hk. split.
    + intros Hitems. cbn. by_property_name k.
    + cbn. by_property_name k.
Qed.

Lemma C9_order_payload_shape_witness :
  field "uom" (orderRecord 2 5) = field "uom" (orderRecord 1 0) /\
  field "uom" (orderItem 2 5) = field "uom" (orderItem 1 0).
Proof.
  assert (H1 : "uom" <> "ordernumber") by discriminate.
  assert (H2 : "uom" <> "items") by discriminate.
  destruct (C9_order_payload_shape 1 0) as (_ & _ & _ & _ & _ & _ & _ & F).
  destruct (F 2%N 5%N) as (_ & _ & G).
  destruct (G "uom" H1) as [A B].
  split; [exact (A H2) | exact B].
Defined.

(** C10: the mrp-reprint payload always carries the same [po_details_code];
    of its two properties only [serial_number] changes with (VU, ITER), and
    it does change between any two distinct pairs of counters below
    2^53. *)
Theorem C10_mrp_reprint_frame (VU ITER VU' ITER' : N) :
  generateMrpReprintPayload VU ITER = JSON_stringify (mrpReprintObject VU ITER) /\
  keys (mrpReprintObject VU ITER) = ["po_details_code"; "serial_number"] /\
  field "po_details_code" (mrpReprintObject VU ITER)
    = Some (JStr "a6dd5d05-318f-4bca-833d-48d01aea97a3") /\
  field "serial_number" (mrpReprintObject VU ITER) = Some (JStr (serialNumber VU ITER)) /\
  (forall k : string,
      k <> "serial_number" ->
      field k (mrpReprintObject VU ITER) = field k (mrpReprintObject VU' ITER')) /\
  ((VU < 2 ^ 53)%N -> (ITER < 2 ^ 53)%N -> (VU' < 2 ^ 53)%N -> (ITER' < 2 ^ 53)%N ->
   (VU, ITER) <> (VU', ITER') ->
   field "serial_number" (mrpReprintObject VU ITER)
     <> field "serial_number" (mrpReprintObject VU' ITER')).
Proof.
  do 4 (split; [reflexivity|]).
  split.
  - intros k Hk. cbn. by_property_name k.
  - intros H1 H2 H3 H4 D E.
    change (Some (JStr (serialNumber VU ITER)) = Some (JStr (serialNumber VU' ITER'))) in E.
    assert (E' : serialNumber VU ITER = serialNumber VU' ITER') by congruence.
    apply serialNumber_inj in E' as [-> ->]; try assumption. now apply D.
Qed.

Lemma C10_mrp_reprint_frame_witness :
  field "po_details_code" (mrpReprintObject 1 0) = field "po_details_code" (mrpReprintObject 1 1) /\
  field "serial_number" (mrpReprintObject 1 0) <> field "serial_number" (mrpReprintObject 1 1).
Proof.
  assert (H1 : "po_details_code" <> "serial_number") by discriminate.
  assert (H2 : (1, 0)%N <> (1, 1)%N) by discriminate.
  destruct (C10_mrp_reprint_frame 1 0 1 1) as (_ & _ & _ & _ & F & G).
  split; [exact (F "po_details_code" H1) | apply G; [reflexivity .. | exact H2]].
Defined.

(** Counters from 2^53 on are not all distinct numbers: 2^53 and 2^53 + 1
    are one binary64 number and give one serial number. *)
Example serial_number_rounded :
  serialNumber 9007199254740992 0 = serialNumber 9007199254740993 0.
Proof. vm_compute. reflexivity. Qed.

End PayloadFacts.

(** ** One iteration of a script, run symbolically *)

(** Unfold the script and the k6 calls it makes, for an arbitrary world.
    The script branches where it reads a status in the debugging block of
    the smart-scan script, and a run ends early where a body predicate
    meets a null body; every such case is followed. *)
Ltac step_calls :=
  cbv [iteration Module1.default Script.default Module2.default SmartScan.default
       run completion group bind ret throw emit http_post http_get http_request check sleep
       trend_add Math_random console_log when evaluate gt map_completion prop_length
       trace fst snd calls draws headers app
       check_calls check_outcomes outcomes requests logs flat_map map].

Ltac same_body :=
  match goal with
  | H : None = Some _ |- _ => discriminate H
  | H : Some _ = None |- _ => discriminate H
  | H : Some ?a = Some ?b |- _ => injection H as H; subst a
  | H : @None string = None |- _ => clear H
  end.

Ltac run_script :=
  step_calls;
  repeat (match goal with
          | |- context [match body ?x with Some _ => _ | None => _ end] =>
              destruct (body x) eqn:?; repeat same_body
          | |- context [if (400 <=? ?x) then _ else _] => destruct (400 <=? x) eqn:?
          end; step_calls).

Ltac cases_of_In H :=
  repeat (destruct H as [H|H]; [|]); try contradiction H.

(** ** Response checks *)

Lemma sample_check_call :
  In (sample_response, sample_checks) (check_calls (run (iteration K6Module1 1 0) ok_world)).
Proof. vm_compute. left. reflexivity. Qed.

(** C1, as stated, fails: the check of the smart-scan generate call has a
    status predicate only, so the response of a server that answers with
    status 200 and an empty body passes every predicate of that check. *)
Lemma C1_status_only_check :
  let res := SmartScanCalls.resGenerate 1 0 empty_ok_world in
  let cs : Checks :=
    [ ("Generate: status is 200/201",
       fun r : Response => Normal ((status r =? 200) || (status r =? 201))) ] in
  In (res, cs) (check_calls (run (iteration K6SmartScan 1 0) empty_ok_world)) /\
  prop_length (body res) = Normal 0%nat /\
  forall (label : string) (p : Predicate), In (label, p) cs -> p res = Normal true.
Proof.
  cbv zeta. split; [vm_compute; left; reflexivity|]. split; [reflexivity|].
  intros label p [H|[]]. injection H as <- <-. reflexivity.
Qed.

(** C1, amended: every check call of k6-module1.js, k6-script.js and
    k6-module2.js, and every check call on the response of a GET request in
    the smart-scan script, has a predicate that fails on every response
    with an empty body, whatever its status code.  The check calls on the
    responses of the two POST requests of the smart-scan script test the
    status only: they hold exactly for status 200 or 201, and they do not
    throw. *)
Theorem C1_checks_require_body
    (s : ScriptName) (VU ITER : N) (w : World) (res : Response) (cs : Checks) :
  In (res, cs) (check_calls (run (iteration s VU ITER) w)) ->
  (s <> K6SmartScan \/ method (request res) = GET ->
   forall r : Response,
     prop_length (body r) = Normal 0%nat ->
     exists (label : string) (p : Predicate), In (label, p) cs /\ p r = Normal false) /\
  (s = K6SmartScan -> method (request res) = POST ->
   forall r : Response,
     evaluate cs r = Normal ((status r =? 200) || (status r =? 201))).
Proof.
  intro Hin. revert Hin.
  destruct s; run_script; intro Hin; cases_of_In Hin; injection Hin as <- <-;
    (split;
     [ intros Hs r Hr;
       first [ solve [destruct Hs as [Hs|Hs]; [now elim Hs | discriminate Hs]]
             | eexists; eexists; split;
               [right; left; reflexivity | cbv beta; unfold gt; now rewrite Hr] ]
     | intros Hs Hm r;
       first [ discriminate Hs | discriminate Hm | cbn; now rewrite andb_true_r ] ]).
Qed.

Lemma C1_checks_require_body_witness :
  exists (label : string) (p : Predicate),
    In (label, p) sample_checks /\
    p (exchange empty_ok_world 0 (request sample_response)) = Normal false.
Proof.
  refine (proj1 (C1_checks_require_body K6Module1 1 0 ok_world sample_response sample_checks
                   sample_check_call) _ _ _).
  - left. discriminate.
  - reflexivity.
Defined.

(** C3: every check call has a predicate labelled with the status; on the
    response of a GET request it holds exactly for status 200, on the
    response of a POST request exactly for status 201, and in the
    smart-scan script exactly for status 200 or 201. *)
Theorem C3_expected_status
    (s : ScriptName) (VU ITER : N) (w : World) (res : Response) (cs : Checks) :
  In (res, cs) (check_calls (run (iteration s VU ITER) w)) ->
  (exists (label : string) (p : Predicate), In (label, p) cs /\ names_status label = true) /\
  forall (label : string) (p : Predicate),
    In (label, p) cs ->
    names_status label = true ->
    forall r : Response,
      p r = Normal true <->
      match method (request res), s with
      | GET, _ => status r = 200
      | POST, K6SmartScan => status r = 200 \/ status r = 201
      | POST, _ => status r = 201
      end.
Proof.
  intro Hin. revert Hin.
  destruct s; run_script; intro Hin; cases_of_In Hin; injection Hin as <- <-;
    (split;
     [ eexists; eexists; split; [left; reflexivity | reflexivity]
     | intros label p Hp Hl r; cases_of_In Hp; injection Hp as <- <-;
       try discriminate Hl; cbn;
       (split; [intro E; injection E as E; revert E | intro E; f_equal; revert E]);
       rewrite ?orb_true_iff, ?Z.eqb_eq; auto ]).
Qed.

Lemma C3_expected_status_witness :
  (fun r : Response => Normal (status r =? 200)) sample_response = Normal true <->
  status sample_response = 200.
Proof.
  destruct (C3_expected_status K6Module1 1 0 ok_world sample_response sample_checks
              sample_check_call) as [_ F].
  apply (F "GET details status is 200" (fun r => Normal (status r =? 200))).
  - left. reflexivity.
  - reflexivity.
Defined.

(** C7: a predicate of a check call gives the same result on any two
    responses with the same status code and the same body length; two null
    bodies count as the same here, the length of neither can be read. *)
Theorem C7_predicates_read_status_and_length
    (s : ScriptName) (VU ITER : N) (w : World) (res : Response) (cs : Checks)
    (label : string) (p : Predicate) :
  In (res, cs) (check_calls (run (iteration s VU ITER) w)) ->
  In (label, p) cs ->
  forall r1 r2 : Response,
    status r1 = status r2 ->
    prop_length (body r1) = prop_length (body r2) ->
    p r1 = p r2.
Proof.
  intros Hin Hp r1 r2 Hs Hb. revert Hin.
  destruct s; run_script; intro Hin; cases_of_In Hin; injection Hin as <- <-;
    cases_of_In Hp; injection Hp as <- <-; cbv beta; rewrite ?Hs;
    try reflexivity;
    destruct (body r1), (body r2); cbn in Hb |- *; try discriminate Hb;
    try reflexivity; injection Hb as Hb; now rewrite Hb.
Qed.

Lemma C7_predicates_read_status_and_length_witness :
  (fun r : Response => gt (prop_length (body r)) 0)
    (mkResponse (request sample_response) 200 (Some "ok") (S754_zero false))
  = (fun r : Response => gt (prop_length (body r)) 0)
      (mkResponse (request sample_response) 200 (Some "no") (S754_zero true)).
Proof.
  apply (C7_predicates_read_status_and_length K6Module1 1 0 ok_world
           sample_response sample_checks
           "GET details has non-empty body").
  - exact sample_check_call.
  - right. left. reflexivity.
  - reflexivity.
  - reflexivity.
Defined.

(** ** Requests *)

(** C4: the scripts with a POST to /api/serialcode/generate are
    k6-module1.js and k6-script.js, and in both the body is the
    serialisation of one and the same object: the five listed keys, with
    the values 1, P001, 1, 2 and the fixed user code.  Both send it in
    every iteration that runs to its end. *)
Theorem C4_serialcode_generate_body (s : ScriptName) (VU ITER : N) (w : World) :
  (forall req : Request,
      In req (requests (run (iteration s VU ITER) w)) ->
      method req = POST ->
      endpoint (url req) = API ++ "/api/serialcode/generate" ->
      (s = K6Module1 \/ s = K6Script) /\
      exists obj : json,
        payload req = Some (JSON_stringify obj) /\
        keys obj = [ "product_category_code"; "plant_code"; "procurement_type_code";
                     "no_of_code"; "user_code" ] /\
        obj = JObj [ ("product_category_code", JNum 1);
                     ("plant_code", JStr "P001");
                     ("procurement_type_code", JNum 1);
                     ("no_of_code", JNum 2);
                     ("user_code", JStr "3fa85f64-5717-4562-b3fc-2c963f66afa6") ]) /\
  (s = K6Module1 \/ s = K6Script ->
   completion (iteration s VU ITER) w = Normal tt ->
   exists req : Request,
     In req (requests (run (iteration s VU ITER) w)) /\
     method req = POST /\
     endpoint (url req) = API ++ "/api/serialcode/generate").
Proof.
  split.
  - intros req Hin. revert Hin.
    destruct s; run_script; intro Hin; cases_of_In Hin; subst req;
      intros Hm Hu; try discriminate Hm; try (vm_compute in Hu; discriminate Hu);
      (split; [first [now left | now right]|]);
      eexists; (split; [reflexivity|]); split; reflexivity.
  - intros [-> | ->]; run_script; intro C; try discriminate C; eexists.
    + split; [right; left; reflexivity|]. split; reflexivity.
    + split; [right; right; left; reflexivity|]. split; reflexivity.
Qed.

Lemma C4_serialcode_generate_body_witness :
  (exists obj : json,
    Some (JSON_stringify Module1.generatePayload) = Some (JSON_stringify obj) /\
    keys obj = [ "product_category_code"; "plant_code"; "procurement_type_code";
                 "no_of_code"; "user_code" ] /\
    obj = JObj [ ("product_category_code", JNum 1);
                 ("plant_code", JStr "P001");
                 ("procurement_type_code", JNum 1);
                 ("no_of_code", JNum 2);
                 ("user_code", JStr "3fa85f64-5717-4562-b3fc-2c963f66afa6") ]) /\
  (exists req : Request,
     In req (requests (run (iteration K6Module1 1 0) ok_world)) /\
     method req = POST /\
     endpoint (url req) = API ++ "/api/serialcode/generate").
Proof.
  split.
  - refine (proj2 (proj1 (C4_serialcode_generate_body K6Module1 1 0 ok_world)
                     (mkRequest POST (Module1.BASE_URL ++ "/api/serialcode/generate")
                                (Some (JSON_stringify Module1.generatePayload)) json_headers)
                     _ _ _)).
    + vm_compute. right. left. reflexivity.
    + reflexivity.
    + reflexivity.
  - refine (proj2 (C4_serialcode_generate_body K6Module1 1 0 ok_world) _ _).
    + left. reflexivity.
    + reflexivity.
Defined.




(** ** The debugging output of the smart-scan script *)

Section SmartScanIteration.

Import SmartScanCalls.

Variables (VU ITER : N) (w : World).

(** C6: the three other scripts write no log line.  The smart-scan script
    writes one exactly when the status of the response to the generate
    call is 400 or more, and the line gives that status and body.  The
    requests of the iteration and the results of the predicates are the
    same either way: four requests and six results, or three requests and
    four results when the response to the headers call has a null body and
    ends the iteration. *)
Theorem C6_diagnostic_log :
  logs (run (iteration K6Module1 VU ITER) w) = [] /\
  logs (run (iteration K6Script VU ITER) w) = [] /\
  logs (run (iteration K6Module2 VU ITER) w) = [] /\
  logs (run (iteration K6SmartScan VU ITER) w)
    = (if 400 <=? status (resGenerate VU ITER w)
       then [ "[GENERATE FAIL] Status: " ++ decZ (status (resGenerate VU ITER w))
                ++ ", Body: " ++ text_of (body (resGenerate VU ITER w)) ]
       else []) /\
  requests (run (iteration K6SmartScan VU ITER) w)
    = ([ generateRequest VU ITER; mrpRequest VU ITER; headersRequest ]
       ++ match body (resHeaders w) with
          | Some _ => [ detailsRequest ]
          | None => []
          end)%list /\
  check_outcomes (run (iteration K6SmartScan VU ITER) w)
    = ([ ("Generate: status is 200/201",
         Normal ((status (resGenerate VU ITER w) =? 200)
                 || (status (resGenerate VU ITER w) =? 201)));
        ("MRP Reprint: status is 200/201",
         Normal ((status (resMrp VU ITER w) =? 200) || (status (resMrp VU ITER w) =? 201)));
        ("GET PO Headers status is 200", Normal (status (resHeaders w) =? 200));
        ("GET PO Headers has non-empty body", gt (prop_length (body (resHeaders w))) 0) ]
      ++ match body (resHeaders w) with
         | Some _ =>
             [ ("GET PO Details status is 200", Normal (status (resDetails w) =? 200));
               ("GET PO Details has non-empty body",
                gt (prop_length (body (resDetails w))) 0) ]
         | None => []
         end)%list.
Proof.
  split; [run_script; reflexivity|].
  split; [run_script; reflexivity|].
  split; [run_script; reflexivity|].
  unfold resGenerate, resMrp, resHeaders, resDetails,
    generateRequest, mrpRequest, headersRequest, detailsRequest.
  split; [|split].
  - run_script; reflexivity.
  - run_script; reflexivity.
  - run_script; reflexivity.
Qed.

End SmartScanIteration.

(** ** The random page number *)

(** C8: for a random number r with 0 <= r < 1 the page is
    floor(r * 100) + 1 with the product rounded to binary64, an integer
    from 1 to 100; the page size is 50; and the first request of an
    iteration of k6-script.js is the GET of the URL with these two
    parameters. *)
Theorem C8_random_page (r : Double.double) :
  Double.in_unit_interval r = true ->
  Script.page r = Double.Math_floor (Double.mul r (Double.of_Z 100)) + 1 /\
  Double.is_finite (Double.mul r (Double.of_Z 100)) = true /\
  1 <= Script.page r <= 100 /\
  Script.pageSize = 50 /\
  Script.paginatedUrl r
    = API ++ "/api/serialcode/get-serial-codes-data?page=" ++ decZ (Script.page r)
          ++ "&pageSize=50" /\
  forall (VU ITER : N) (w : World),
    random w 0 = r ->
    hd_error (requests (run (iteration K6Script VU ITER) w))
      = Some (mkRequest GET (Script.paginatedUrl r) None json_headers).
Proof.
  intro H.
  split; [reflexivity|].
  split; [now apply random_times_100_finite|].
  split; [unfold Script.page; pose proof (random_times_100_floor r H); lia|].
  split; [reflexivity|].
  split; [reflexivity|].
  intros VU ITER w <-. run_script; reflexivity.
Qed.

Lemma C8_random_page_witness : 1 <= Script.page one_half <= 100.
Proof.
  assert (H : Double.in_unit_interval one_half = true) by (vm_compute; reflexivity).
  exact (proj1 (proj2 (proj2 (C8_random_page one_half H)))).
Defined.

(** Both ends of the range occur: 0 gives page 1, and the largest number
    below 1 gives page 100. *)
Example page_of_zero : Script.page (S754_zero false) = 1.
Proof. vm_compute. reflexivity. Qed.

Example page_of_largest :
  Double.in_unit_interval (S754_finite false 9007199254740991 (-53)) = true /\
  Script.page (S754_finite false 9007199254740991 (-53)) = 100.
Proof. vm_compute. split; reflexivity. Qed.

(** The rounding of the product shows: 0.29 * 100 is 28.999999999999996 in
    binary64, which gives page 29. *)
Example page_of_0_29 : Script.page (S754_finite false 5224175567749775 (-54)) = 29.
Proof. vm_compute. reflexivity. Qed.

(** ** The structure of an iteration *)

(** Unfold the script and its calls like [step_calls], and the further
    readings of the trace with them. *)
Ltac step_trace :=
  cbv [iteration Module1.default Script.default Module2.default SmartScan.default
       run completion group bind ret throw emit http_post http_get http_request check sleep
       trend_add Math_random console_log when evaluate gt map_completion prop_length
       trace fst snd calls draws headers app
       check_calls check_outcomes outcomes requests logs flat_map map
       responses trends sleeps after_sleep nesting request_groups check_groups
       checked_before_next checked_per_exchange tl].

Ltac run_trace :=
  step_trace;
  repeat (match goal with
          | |- context [match body ?x with Some _ => _ | None => _ end] =>
              destruct (body x) eqn:?; repeat same_body
          | |- context [if (400 <=? ?x) then _ else _] => destruct (400 <=? x) eqn:?
          end; step_trace).

(** X1: the groups of an iteration are opened and closed in stack order and
    none is left open, also when the iteration ends early; every request is
    sent inside exactly two nested groups, and every [check] call is made
    in the groups of the request it follows. *)
Theorem X1_groups_well_nested (s : ScriptName) (VU ITER : N) (w : World) :
  let t := run (iteration s VU ITER) w in
  nesting [] t = Some [] /\
  Forall (fun stack => List.length stack = 2%nat) (request_groups [] t) /\
  check_groups [] t = request_groups [] t.
Proof.
  cbv zeta. destruct s; run_trace; (split; [reflexivity|]);
    (split; [repeat constructor | reflexivity]).
Qed.

(** X2: every response received is handed to [check] exactly once, before
    the next request is sent, and nothing else is checked; this holds of
    the iterations that end early too. *)
Theorem X2_each_response_checked_once (s : ScriptName) (VU ITER : N) (w : World) :
  let t := run (iteration s VU ITER) w in
  checked_before_next t = [] /\
  checked_per_exchange t = map (fun res => (res, [res])) (responses t).
Proof.
  cbv zeta. destruct s; run_trace; split; reflexivity.
Qed.

Ltac use_bodies :=
  repeat match goal with
         | H : body _ = _ |- _ => rewrite H
         end.

(** X3: every predicate evaluated in an iteration holds exactly when every
    response received is healthy: status 200 with a non-empty body for a
    GET, status 201 with a non-empty body for a POST, and status 200 or 201
    for a POST of the smart-scan script.  An iteration in which every
    predicate holds runs to its end and sends the whole plan. *)
Theorem X3_all_checks_pass_iff_healthy (s : ScriptName) (VU ITER : N) (w : World) :
  let t := run (iteration s VU ITER) w in
  forallb (fun o => passed (snd o)) (check_outcomes t) = forallb (healthy s) (responses t) /\
  (forallb (fun o => passed (snd o)) (check_outcomes t) = true ->
   completion (iteration s VU ITER) w = Normal tt /\
   map called (requests t) = request_plan s).
Proof.
  cbv zeta. split.
  - destruct s; run_trace;
      cbv [forallb healthy has_body passed snd];
      use_bodies; cbv [exchange request method];
      rewrite ?andb_true_r, ?andb_false_r, ?andb_assoc; reflexivity.
  - destruct s; run_trace; cbv [forallb passed snd];
      rewrite ?andb_false_r; intro P; try discriminate P;
      (split; [reflexivity | vm_compute; reflexivity]).
Qed.

Lemma X3_all_checks_pass_iff_healthy_witness :
  completion (iteration K6SmartScan 1 0) ok_world = Normal tt /\
  map called (requests (run (iteration K6SmartScan 1 0) ok_world)) = request_plan K6SmartScan.
Proof.
  apply (proj2 (X3_all_checks_pass_iff_healthy K6SmartScan 1 0 ok_world)).
  vm_compute. reflexivity.
Defined.

(** X4: k6-script.js adds the duration of each response it receives to
    the trend of that request, in the order of its requests and before the
    response is checked; in an iteration that runs to its end that is one
    sample for each of the three trends.  The other scripts add none. *)
Theorem X4_trend_samples (s : ScriptName) (VU ITER : N) (w : World) :
  let t := run (iteration s VU ITER) w in
  trends t =
  match s with
  | K6Script =>
      combine [ Script.getPaginatedDataTrend; Script.getHeadersTrend; Script.postGenerateTrend ]
              (map timings_duration (responses t))
  | _ => []
  end /\
  (s = K6Script ->
   completion (iteration s VU ITER) w = Normal tt ->
   map fst (trends t)
   = [ Script.getPaginatedDataTrend; Script.getHeadersTrend; Script.postGenerateTrend ]).
Proof.
  cbv zeta. split.
  - destruct s; run_trace; reflexivity.
  - intros ->. run_trace; intro C; try discriminate C; reflexivity.
Qed.

Lemma X4_trend_samples_witness :
  map fst (trends (run (iteration K6Script 1 0) ok_world))
  = [ Script.getPaginatedDataTrend; Script.getHeadersTrend; Script.postGenerateTrend ].
Proof.
  apply (proj2 (X4_trend_samples K6Script 1 0 ok_world)); reflexivity.
Defined.

(** X5: every trend a script feeds has a threshold, and every metric a
    script sets a threshold on is one that k6 provides or a trend the
    script feeds in every iteration that runs to its end. *)
Theorem X5_thresholds_name_fed_metrics (s : ScriptName) (VU ITER : N) (w : World) :
  let fed := map fst (trends (run (iteration s VU ITER) w)) in
  let limited := map fst (thresholds (options_of s)) in
  (completion (iteration s VU ITER) w = Normal tt ->
   forall metric : string,
     In metric limited -> In metric builtin_metrics \/ In metric fed) /\
  (forall metric : string, In metric fed -> In metric limited).
Proof.
  cbv zeta. destruct s; run_trace;
    cbv [options_of Module1.options Script.options Module2.options SmartScan.options
         thresholds map fst builtin_metrics
         Script.getPaginatedDataTrend Script.getHeadersTrend Script.postGenerateTrend];
    (split; [intros C metric H; try discriminate C | intros metric H]);
    cbn [In] in *; intuition.
Qed.

Lemma X5_thresholds_name_fed_metrics_witness :
  In "post_generate_duration" builtin_metrics \/
  In "post_generate_duration" (map fst (trends (run (iteration K6Script 1 0) ok_world))).
Proof.
  refine (proj1 (X5_thresholds_name_fed_metrics K6Script 1 0 ok_world) _
                "post_generate_duration" _).
  - reflexivity.
  - cbv [options_of Script.options thresholds map fst]. do 3 right. left. reflexivity.
Defined.

(** X6: what a script sends depends on what comes back only through the
    point where the iteration ends: with the same random draw, the requests
    of an iteration are an initial part of those of any iteration that
    runs to its end, and two iterations that run to their ends send the
    same requests, payloads, headers and tags included. *)
Theorem X6_requests_ignore_replies (s : ScriptName) (VU ITER : N) (w w' : World) :
  random w 0 = random w' 0 ->
  (completion (iteration s VU ITER) w' = Normal tt ->
   exists rest : list Request,
     requests (run (iteration s VU ITER) w')
     = (requests (run (iteration s VU ITER) w) ++ rest)%list) /\
  (completion (iteration s VU ITER) w = Normal tt ->
   completion (iteration s VU ITER) w' = Normal tt ->
   requests (run (iteration s VU ITER) w) = requests (run (iteration s VU ITER) w')).
Proof.
  intro H. split.
  - destruct s; run_trace; intro C; try discriminate C; rewrite ?H;
      eexists; cbn [app]; reflexivity.
  - destruct s; run_trace; intro C; try discriminate C; intro C'; try discriminate C';
      rewrite ?H; reflexivity.
Qed.

Lemma X6_requests_ignore_replies_witness :
  requests (run (iteration K6Script 1 0) ok_world)
  = requests (run (iteration K6Script 1 0) empty_ok_world).
Proof.
  apply (proj2 (X6_requests_ignore_replies K6Script 1 0 ok_world empty_ok_world eq_refl));
    reflexivity.
Defined.

(** X7: every POST request carries a payload and the header
    Content-Type: application/json, and every GET request carries no
    payload. *)
Theorem X7_payload_and_content_type
    (s : ScriptName) (VU ITER : N) (w : World) (req : Request) :
  In req (requests (run (iteration s VU ITER) w)) ->
  match method req with
  | POST => payload req <> None /\
            In ("Content-Type", "application/json") (headers (params req))
  | GET => payload req = None
  end.
Proof.
  intro Hin. revert Hin.
  destruct s; run_trace; intro Hin; cases_of_In Hin; subst req;
    cbv [method payload params headers json_headers];
    first [ reflexivity | split; [discriminate | left; reflexivity] ].
Qed.

Lemma X7_payload_and_content_type_witness :
  payload (SmartScanCalls.mrpRequest 1 0) <> None /\
  In ("Content-Type", "application/json") (headers (params (SmartScanCalls.mrpRequest 1 0))).
Proof.
  refine (X7_payload_and_content_type K6SmartScan 1 0 ok_world
            (SmartScanCalls.mrpRequest 1 0) _).
  vm_compute. right. left. reflexivity.
Defined.

(** X8: k6-module1.js, k6-module2.js and the smart-scan script pause for
    one second once in an iteration that runs to its end, and not at all in
    one that ends early; k6-script.js never pauses.  After the pause no
    request is sent and nothing is checked. *)
Theorem X8_one_pause_at_the_end (s : ScriptName) (VU ITER : N) (w : World) :
  let t := run (iteration s VU ITER) w in
  sleeps t = match completion (iteration s VU ITER) w, s with
             | Normal _, K6Script => []
             | Normal _, _ => [1]
             | Throw _, _ => []
             end /\
  requests (after_sleep t) = [] /\
  check_calls (after_sleep t) = [].
Proof.
  cbv zeta. destruct s; run_trace; repeat split; reflexivity.
Qed.

(** X18: an iteration runs to its end exactly when every response whose
    body its check reads has a body; otherwise it ends with a TypeError at
    the first response that has none, which is the last one received. *)
Theorem X18_iteration_ends_early (s : ScriptName) (VU ITER : N) (w : World) :
  let t := run (iteration s VU ITER) w in
  completion (iteration s VU ITER) w
  = (if forallb (readable s) (responses t) then Normal tt else Throw TypeError) /\
  (completion (iteration s VU ITER) w <> Normal tt ->
   exists res : Response,
     last (map Some (responses t)) None = Some res /\ body res = None).
Proof.
  cbv zeta. split.
  - destruct s; run_trace; cbv [forallb readable reads_body];
      use_bodies; cbv [exchange request method negb orb andb]; reflexivity.
  - destruct s; run_trace; intro C; try (now elim C);
      eexists; (split; [reflexivity | assumption]).
Qed.

Lemma X18_iteration_ends_early_witness :
  exists res : Response,
    last (map Some (responses (run (iteration K6Script 1 0) unreachable_world))) None
    = Some res /\ body res = None.
Proof.
  apply (proj2 (X18_iteration_ends_early K6Script 1 0 unreachable_world)).
  discriminate.
Defined.

(** X16: within one iteration no two predicates share a label, so every
    result of a predicate has a name of its own. *)
Theorem X16_check_labels_distinct (s : ScriptName) (VU ITER : N) (w : World) :
  NoDup (map fst (check_outcomes (run (iteration s VU ITER) w))).
Proof.
  destruct s; run_trace;
    repeat (constructor; [cbn [In]; intuition discriminate|]); constructor.
Qed.

(** ** Payload texts *)

Module TextFacts.

Import SmartScanPayload.

Lemma append_assoc (a b c : string) : (a ++ b) ++ c = a ++ (b ++ c).
Proof. induction a as [|x a IH]; simpl; [reflexivity | now rewrite IH]. Qed.

Lemma length_app (a b : string) :
  String.length (a ++ b) = (String.length a + String.length b)%nat.
Proof. induction a as [|x a IH]; simpl; [reflexivity | now rewrite IH]. Qed.

Lemma escape_app (a b : string) : escape (a ++ b) = escape a ++ escape b.
Proof.
  induction a as [|x a IH]; simpl; [reflexivity|]. now rewrite IH, append_assoc.
Qed.

Lemma uint_digits (d : Decimal.uint) : all_digits (NilEmpty.string_of_uint d) = true.
Proof. induction d; simpl; auto. Qed.

Lemma escape_uint (d : Decimal.uint) :
  escape (NilEmpty.string_of_uint d) = NilEmpty.string_of_uint d.
Proof. induction d; simpl; [reflexivity | now rewrite IHd ..]. Qed.

Lemma escape_dec (n : N) : escape (dec n) = dec n.
Proof. apply escape_uint. Qed.

Lemma dec_digits (n : N) : all_digits (dec n) = true.
Proof. apply uint_digits. Qed.

Lemma dec_not_empty (n : N) : (1 <= String.length (dec n))%nat.
Proof.
  unfold dec. destruct n as [|p]; [simpl; lia|].
  change (N.to_uint (N.pos p)) with (Pos.to_uint p).
  pose proof (DecimalPos.Unsigned.to_uint_nonnil p) as NN.
  destruct (Pos.to_uint p); simpl; try lia. now elim NN.
Qed.

Lemma all_digits_app (a b : string) :
  all_digits (a ++ b) = all_digits a && all_digits b.
Proof.
  induction a as [|x a IH]; simpl; [reflexivity|]. now rewrite IH, andb_assoc.
Qed.

(** The leading digits of a run of digits followed by another character. *)
Lemma leading_digits_app (a : string) (c : ascii) (rest : string) :
  all_digits a = true -> is_digit c = false ->
  leading_digits (a ++ String c rest) = a.
Proof.
  intros Ha Hc. induction a as [|x a IH]; simpl in *.
  - now rewrite Hc.
  - apply andb_true_iff in Ha as [Hx Ha]. rewrite Hx. f_equal. now apply IH.
Qed.

End TextFacts.

(** Write out the escaped form of every literal in the goal. *)
Ltac escape_literals :=
  repeat match goal with
         | |- context [escape ?s] =>
             let v := eval vm_compute in (escape s) in change (escape s) with v
         end.

Module PayloadTextFacts.

Import SmartScanPayload TextFacts PayloadFacts.

(** The order payload, from its 62nd character on, is the order number
    followed by a double quote. *)
Lemma order_payload_tail (VU ITER : N) :
  (VU * 10000 + ITER < 2 ^ 53)%N ->
  exists rest : string,
    drop 61 (generateOrderPayload VU ITER)
    = "123456789" ++ dec (VU * 10000 + ITER) ++ String dquote rest.
Proof.
  intro H.
  unfold generateOrderPayload, orderObject, orderRecord, orderItem.
  rewrite uniqueOrderNumber_safe by assumption.
  cbn [JSON_stringify map join fst snd]. unfold quote.
  rewrite !escape_app, !escape_dec.
  set (u := dec (VU * 10000 + ITER)).
  escape_literals.
  rewrite !append_assoc. cbn [append drop].
  rewrite !append_assoc. cbn [append].
  eexists. reflexivity.
Qed.

Lemma order_number_read_back (VU ITER : N) :
  (VU * 10000 + ITER < 2 ^ 53)%N ->
  leading_digits (drop 61 (generateOrderPayload VU ITER)) = uniqueOrderNumber VU ITER.
Proof.
  intro H. destruct (order_payload_tail VU ITER H) as [rest ->].
  rewrite uniqueOrderNumber_safe by assumption.
  rewrite <- append_assoc.
  apply leading_digits_app; [|reflexivity].
  rewrite all_digits_app, dec_digits. reflexivity.
Qed.

Lemma order_payload_numericPart (VU ITER VU' ITER' : N) :
  (VU * 10000 + ITER < 2 ^ 53)%N -> (VU' * 10000 + ITER' < 2 ^ 53)%N ->
  generateOrderPayload VU ITER = generateOrderPayload VU' ITER' ->
  (VU * 10000 + ITER = VU' * 10000 + ITER')%N.
Proof.
  intros H H' E. apply uniqueOrderNumber_inj; try assumption.
  rewrite <- (order_number_read_back VU ITER H), <- (order_number_read_back VU' ITER' H').
  now rewrite E.
Qed.

(** The mrp-reprint payload, from its 95th character on, is the two
    counters with a dash between them, then the closing quote and brace. *)
Lemma mrp_payload_tail (VU ITER : N) :
  (VU < 2 ^ 53)%N -> (ITER < 2 ^ 53)%N ->
  drop 94 (generateMrpReprintPayload VU ITER)
  = dec VU ++ String "-" (dec ITER ++ String dquote "}").
Proof.
  intros H1 H2.
  unfold generateMrpReprintPayload, mrpReprintObject.
  rewrite serialNumber_safe by assumption.
  cbn [JSON_stringify map join fst snd]. unfold quote.
  rewrite !escape_app, !escape_dec.
  escape_literals.
  repeat (rewrite append_assoc; cbn [append drop]).
  reflexivity.
Qed.

(** X9: as long as VU * 10000 + ITER stays below 2^53 for both, two order
    payloads are the same text exactly when VU * 10000 + ITER is the same
    number. *)
Theorem X9_order_payload_text (VU ITER VU' ITER' : N) :
  (VU * 10000 + ITER < 2 ^ 53)%N -> (VU' * 10000 + ITER' < 2 ^ 53)%N ->
  (generateOrderPayload VU ITER = generateOrderPayload VU' ITER'
   <-> (VU * 10000 + ITER = VU' * 10000 + ITER')%N).
Proof.
  intros H H'. split.
  - now apply order_payload_numericPart.
  - intro E.
    unfold generateOrderPayload, orderObject, orderRecord, orderItem.
    rewrite !uniqueOrderNumber_safe by assumption.
    now rewrite E.
Qed.

Lemma X9_order_payload_text_witness :
  generateOrderPayload 1 10000 = generateOrderPayload 2 0.
Proof.
  apply (X9_order_payload_text 1 10000 2 0); reflexivity.
Defined.

(** X10: as long as VU * 10000 + ITER stays below 2^53, the order payloads
    of two distinct (VU, ITER) pairs are distinct texts when both iteration
    indices are below 10000, and those of one virtual user are distinct in
    all its iterations. *)
Theorem X10_order_payload_unique (VU ITER VU' ITER' : N) :
  (VU * 10000 + ITER < 2 ^ 53)%N -> (VU' * 10000 + ITER' < 2 ^ 53)%N ->
  (VU, ITER) <> (VU', ITER') ->
  ((ITER < 10000)%N -> (ITER' < 10000)%N ->
   generateOrderPayload VU ITER <> generateOrderPayload VU' ITER') /\
  (VU = VU' -> generateOrderPayload VU ITER <> generateOrderPayload VU' ITER').
Proof.
  intros H H' D. split.
  - intros L L' E. apply order_payload_numericPart in E; try assumption.
    apply D. f_equal; lia.
  - intros -> E. apply order_payload_numericPart in E; try assumption.
    apply D. f_equal. lia.
Qed.

Lemma X10_order_payload_unique_witness :
  generateOrderPayload 3 7 <> generateOrderPayload 4 7 /\
  generateOrderPayload 3 7 <> generateOrderPayload 3 8.
Proof.
  assert (D1 : (3, 7)%N <> (4, 7)%N) by discriminate.
  assert (D2 : (3, 7)%N <> (3, 8)%N) by discriminate.
  split.
  - apply (proj1 (X10_order_payload_unique 3 7 4 7 eq_refl eq_refl D1)); reflexivity.
  - apply (proj2 (X10_order_payload_unique 3 7 3 8 eq_refl eq_refl D2)); reflexivity.
Defined.

(** X11: the mrp-reprint payloads of two distinct (VU, ITER) pairs of
    counters below 2^53 are distinct texts. *)
Theorem X11_mrp_payload_unique (VU ITER VU' ITER' : N) :
  (VU < 2 ^ 53)%N -> (ITER < 2 ^ 53)%N -> (VU' < 2 ^ 53)%N -> (ITER' < 2 ^ 53)%N ->
  (VU, ITER) <> (VU', ITER') ->
  generateMrpReprintPayload VU ITER <> generateMrpReprintPayload VU' ITER'.
Proof.
  intros H1 H2 H3 H4 D E. apply (f_equal (drop 94)) in E.
  rewrite !mrp_payload_tail in E by assumption.
  apply split_at_dash in E; try apply dec_no_dash.
  destruct E as [E1 E2]. apply dec_inj in E1.
  apply (f_equal leading_digits) in E2.
  rewrite !leading_digits_app in E2 by (try apply dec_digits; reflexivity).
  apply dec_inj in E2. apply D. now subst.
Qed.

Lemma X11_mrp_payload_unique_witness :
  generateMrpReprintPayload 1 10000 <> generateMrpReprintPayload 2 0.
Proof. apply X11_mrp_payload_unique; [reflexivity .. | discriminate]. Defined.

(** X12: as long as VU * 10000 + ITER stays below 2^53 the order number is
    numeric only: it consists of decimal digits, ten or more of them, and
    it is the run of digits found at a fixed place of the payload text. *)
Theorem X12_order_number_numeric (VU ITER : N) :
  (VU * 10000 + ITER < 2 ^ 53)%N ->
  all_digits (uniqueOrderNumber VU ITER) = true /\
  (10 <= String.length (uniqueOrderNumber VU ITER))%nat /\
  leading_digits (drop 61 (generateOrderPayload VU ITER)) = uniqueOrderNumber VU ITER.
Proof.
  intro H.
  split; [|split; [|now apply order_number_read_back]];
    rewrite uniqueOrderNumber_safe by assumption.
  - rewrite all_digits_app, dec_digits. reflexivity.
  - rewrite length_app. pose proof (dec_not_empty (VU * 10000 + ITER)). simpl. lia.
Qed.

Lemma X12_order_number_numeric_witness :
  all_digits (uniqueOrderNumber 1 10000) = true.
Proof. apply (X12_order_number_numeric 1 10000). reflexivity. Defined.

(** Outside that range the order number need not be numeric. *)
Example order_number_not_numeric :
  all_digits (uniqueOrderNumber 100000000000000000 0) = false.
Proof. vm_compute. reflexivity. Qed.

(** X19: as long as VU * 10000 + ITER stays below 2^53 the numeric part is
    that integer, computed without rounding, and the order number is
    123456789 followed by its decimal digits; for counters below 2^53 the
    serial number is the fixed prefix followed by the decimal digits of VU,
    a dash and the decimal digits of ITER. *)
Theorem X19_identifiers_below_2_53 (VU ITER : N) :
  ((VU * 10000 + ITER < 2 ^ 53)%N ->
   numericPart VU ITER = Double.of_N (VU * 10000 + ITER) /\
   uniqueOrderNumber VU ITER = "123456789" ++ dec (VU * 10000 + ITER)) /\
  ((VU < 2 ^ 53)%N -> (ITER < 2 ^ 53)%N ->
   serialNumber VU ITER = "P00302H4QhG6M1b00E-" ++ dec VU ++ "-" ++ dec ITER).
Proof.
  split.
  - intro H. split; [now apply IntegerFacts.numericPart_exact|].
    now apply uniqueOrderNumber_safe.
  - intros H1 H2. now apply serialNumber_safe.
Qed.

Lemma X19_identifiers_below_2_53_witness :
  uniqueOrderNumber 7 42 = "123456789" ++ dec 70042 /\
  serialNumber 7 42 = "P00302H4QhG6M1b00E-" ++ dec 7 ++ "-" ++ dec 42.
Proof.
  split.
  - apply (proj1 (X19_identifiers_below_2_53 7 42)). reflexivity.
  - apply (proj2 (X19_identifiers_below_2_53 7 42)); reflexivity.
Defined.

End PayloadTextFacts.

(** ** Texts built from a status or a page number *)

Module NumberTextFacts.

Import TextFacts.

Lemma decZ_inj (a b : Z) : decZ a = decZ b -> a = b.
Proof.
  unfold decZ. intro E.
  assert (U : Some (Z.to_int a) = Some (Z.to_int b)).
  { rewrite <- (NilEmpty.isi (Z.to_int a)), <- (NilEmpty.isi (Z.to_int b)).
    now rewrite E. }
  injection U as U.
  rewrite <- (DecimalZ.of_to a), <- (DecimalZ.of_to b). now rewrite U.
Qed.

Lemma uint_no_ampersand (d : Decimal.uint) : has "&" (NilEmpty.string_of_uint d) = false.
Proof. induction d; simpl; auto. Qed.

Lemma uint_no_comma (d : Decimal.uint) : has "," (NilEmpty.string_of_uint d) = false.
Proof. induction d; simpl; auto. Qed.

Lemma decZ_no_ampersand (z : Z) : has "&" (decZ z) = false.
Proof. unfold decZ. destruct (Z.to_int z); simpl; apply uint_no_ampersand. Qed.

Lemma decZ_no_comma (z : Z) : has "," (decZ z) = false.
Proof. unfold decZ. destruct (Z.to_int z); simpl; apply uint_no_comma. Qed.

(** Two texts cut at the first occurrence of a character agree piecewise. *)
Lemma split_at (c : ascii) (a a' b b' : string) :
  has c a = false -> has c a' = false ->
  a ++ String c b = a' ++ String c b' -> a = a' /\ b = b'.
Proof.
  revert a'. induction a as [|x a IH]; intros [|x' a'] Ha Ha' E; simpl in *.
  - injection E as E. auto.
  - injection E as Ec _. subst x'. rewrite Ascii.eqb_refl in Ha'. discriminate.
  - injection E as Ec _. subst x. rewrite Ascii.eqb_refl in Ha. discriminate.
  - injection E as Ec E. subst x'.
    apply orb_false_iff in Ha as [_ Ha]. apply orb_false_iff in Ha' as [_ Ha'].
    destruct (IH a' Ha Ha' E) as [-> ->]. auto.
Qed.

(** X13: the URL of the paginated request depends on the random number
    through the page only: two random numbers give the same URL exactly
    when they give the same page. *)
Theorem X13_paginated_url_by_page (r r' : Double.double) :
  Script.paginatedUrl r = Script.paginatedUrl r' <-> Script.page r = Script.page r'.
Proof.
  unfold Script.paginatedUrl. split.
  - intro E. apply append_cancel_l in E. apply append_cancel_l in E.
    change (decZ (Script.page r) ++ String "&" ("pageSize=" ++ decZ Script.pageSize)
            = decZ (Script.page r') ++ String "&" ("pageSize=" ++ decZ Script.pageSize)) in E.
    apply split_at in E; try apply decZ_no_ampersand.
    now apply decZ_inj.
  - now intros ->.
Qed.

(** X14: the debugging line of the smart-scan script tells status and body
    apart: two responses with the same line have the same status and the
    same body text, hence the same body when both have one (a null body
    and the body [null] read the same). *)
Theorem X14_fail_message_identifies (res res' : Response) :
  SmartScan.generateFailMessage res = SmartScan.generateFailMessage res' ->
  status res = status res' /\
  text_of (body res) = text_of (body res') /\
  forall b b' : string, body res = Some b -> body res' = Some b' -> b = b'.
Proof.
  unfold SmartScan.generateFailMessage. intro E.
  apply append_cancel_l in E.
  change (decZ (status res) ++ String "," (" Body: " ++ text_of (body res))
          = decZ (status res') ++ String "," (" Body: " ++ text_of (body res'))) in E.
  apply split_at in E; try apply decZ_no_comma.
  destruct E as [E1 E2]. apply append_cancel_l in E2.
  split; [now apply decZ_inj|]. split; [exact E2|].
  intros b b' Hb Hb'. rewrite Hb, Hb' in E2. exact E2.
Qed.

Lemma X14_fail_message_identifies_witness :
  status (SmartScanCalls.resGenerate 1 0 ok_world) = status sample_response /\
  text_of (body (SmartScanCalls.resGenerate 1 0 ok_world)) = text_of (body sample_response).
Proof.
  destruct (X14_fail_message_identifies (SmartScanCalls.resGenerate 1 0 ok_world)
              sample_response eq_refl) as (A & B & _).
  split; [exact A | exact B].
Defined.

End NumberTextFacts.

(** ** Every page is drawn *)

(** The pages from 1 to 100 and the number in the middle of each. *)
Lemma middle_of_each_page :
  forallb (fun k => let p := Z.of_nat k in
                    Double.in_unit_interval (middle_of_page p)
                    && (Script.page (middle_of_page p) =? p))
          (seq 1 100) = true.
Proof. vm_compute. reflexivity. Qed.

(** X15: every page from 1 to 100 is the page of some random number
    r with 0 <= r < 1. *)
Theorem X15_every_page_reached (p : Z) :
  1 <= p <= 100 ->
  exists r : Double.double,
    Double.in_unit_interval r = true /\ Script.page r = p.
Proof.
  intro H. exists (middle_of_page p).
  pose proof middle_of_each_page as F. rewrite forallb_forall in F.
  specialize (F (Z.to_nat p)).
  rewrite Z2Nat.id in F by lia. cbv zeta in F.
  apply andb_true_iff in F.
  - destruct F as [F1 F2]. split; [exact F1 | now apply Z.eqb_eq].
  - apply in_seq. lia.
Qed.

Lemma X15_every_page_reached_witness :
  exists r : Double.double,
    Double.in_unit_interval r = true /\ Script.page r = 42.
Proof. apply X15_every_page_reached. lia. Defined.

(** ** The page and the product without rounding *)

Module ExactPageFacts.

Import Double DoubleFacts.

(** The steps of [SFmul] on a positive number below 1 and 100: a shift by
    [k1], the rounding of the mantissa, a shift by [k2]. *)
Lemma product_rounding (m : positive) (e : Z) :
  Zpos m < 2 ^ 53 ->
  -1074 <= e <= -53 ->
  exists k1 k2 m2 m3 e3 : Z,
    0 <= k1 /\ 0 <= k2 /\ e3 = e - 46 + k1 + k2 /\ e3 <= -45 /\
    Zpos m * (25 * 2 ^ 48) / 2 ^ k1 <= m2 <= Zpos m * (25 * 2 ^ 48) / 2 ^ k1 + 1 /\
    m3 = m2 / 2 ^ k2 /\
    mul (S754_finite false m e) hundred
    = match m3 with
      | Z0 => S754_zero false
      | Zpos q => S754_finite false q e3
      | Zneg _ => S754_nan
      end.
Proof.
  intros Hm He.
  unfold mul, hundred, SFmul, binary_round_aux, shr_fexp.
  cbn [xorb shr_record_of_loc].
  set (P := (m * 7036874417766400)%positive).
  set (E := e + -46).
  assert (HP : Zpos P = Zpos m * (25 * 2 ^ 48))
    by (unfold P; rewrite Pos2Z.inj_mul; reflexivity).
  rewrite <- HP.
  pose proof (Zdigits2_bounds P) as [Dlo Dhi].
  set (d := Zdigits2 (Zpos P)) in *.
  assert (Hd106 : d <= 106).
  { apply Zdigits2_le; [lia|]. split; [lia|]. rewrite HP.
    change (2 ^ 106) with (2 ^ 53 * (32 * 2 ^ 48)). nia. }
  set (n1 := fexp prec emax (d + E) - E).
  pose proof (shr_m_e (Build_shr_record (Zpos P) false false) E n1) as S1.
  destruct (shr (Build_shr_record (Zpos P) false false) E n1) as [mrs1 e1].
  cbn [fst snd shr_m] in S1. destruct S1 as [M1 E1]; [lia|].
  set (k1 := Z.max n1 0) in *.
  assert (Hn1 : n1 = Z.max (d + E - 53) (-1074) - E) by reflexivity.
  assert (Hm1 : 0 <= shr_m mrs1 < 2 ^ 53).
  { rewrite M1. split; [apply Z.div_pos; lia|].
    apply Z.div_lt_upper_bound; [lia|].
    rewrite <- Z.pow_add_r by lia.
    apply Z.lt_le_trans with (1 := Dhi). apply Z.pow_le_mono_r; lia. }
  pose proof (round_nearest_even_bounds (shr_m mrs1) (loc_of_shr_record mrs1)) as R.
  set (m2 := round_nearest_even (shr_m mrs1) (loc_of_shr_record mrs1)) in *.
  assert (Hd2 : Zdigits2 m2 <= 54).
  { apply Zdigits2_le; [lia|]. change (2 ^ 54) with (2 * 2 ^ 53). lia. }
  set (n2 := fexp prec emax (Zdigits2 m2 + e1) - e1).
  pose proof (shr_m_e (Build_shr_record m2 false false) e1 n2) as S2.
  destruct (shr (Build_shr_record m2 false false) e1 n2) as [mrs2 e2].
  cbn [fst snd shr_m] in S2. destruct S2 as [M2 E2]; [lia|].
  set (k2 := Z.max n2 0) in *.
  assert (Hn2 : n2 = Z.max (Zdigits2 m2 + e1 - 53) (-1074) - e1) by reflexivity.
  assert (He2 : e2 <= -45) by (unfold E in *; lia).
  exists k1, k2, m2, (shr_m mrs2), e2.
  split; [lia|]. split; [lia|]. split; [unfold E in *; lia|]. split; [exact He2|].
  split; [rewrite <- M1; exact R|]. split; [exact M2|].
  destruct (shr_m mrs2) as [|q|q]; try reflexivity.
  destruct (e2 <=? emax - prec) eqn:Le; [reflexivity|].
  apply Z.leb_gt in Le. unfold emax, prec in Le. lia.
Qed.

(** The floor of the rounded product is the floor of the exact product or
    one more. *)
Lemma floor_times_100_sandwich (m : positive) (e : Z) :
  Zpos m < 2 ^ 53 ->
  -1074 <= e <= -53 ->
  100 * Zpos m / 2 ^ (- e)
  <= Math_floor (mul (S754_finite false m e) hundred)
  <= 100 * Zpos m / 2 ^ (- e) + 1.
Proof.
  intros Hm He.
  destruct (product_rounding m e Hm He)
    as (k1 & k2 & m2 & m3 & e3 & Hk1 & Hk2 & He3 & Hneg & R & M3 & ->).
  set (P := Zpos m * (25 * 2 ^ 48)) in *.
  set (F := 100 * Zpos m / 2 ^ (- e)).
  set (X := 2 ^ k1) in *. set (Y := 2 ^ k2) in *. set (W := 2 ^ (- e3)).
  assert (PX : 0 < X) by (apply Z.pow_pos_nonneg; lia).
  assert (PY : 0 < Y) by (apply Z.pow_pos_nonneg; lia).
  assert (PW : 0 < W) by (apply Z.pow_pos_nonneg; lia).
  assert (PE : 0 < 2 ^ (- e)) by (apply Z.pow_pos_nonneg; lia).
  (* the exact floor, in terms of the product's mantissa *)
  assert (HF : F = P / (W * (Y * X))).
  { unfold F, P, W, Y, X. rewrite <- !Z.pow_add_r by lia.
    replace (- e3 + (k2 + k1)) with (46 + - e) by lia.
    rewrite Z.pow_add_r by lia.
    replace (Z.pos m * (25 * 2 ^ 48)) with (100 * Z.pos m * 2 ^ 46)
      by (change (2 ^ 48) with (4 * 2 ^ 46); ring).
    rewrite (Z.mul_comm (2 ^ 46)). rewrite Z.div_mul_cancel_r; lia. }
  assert (F0 : 0 <= F) by (rewrite HF; apply Z.div_pos; unfold P; nia).
  assert (FL : W * (Y * X) * F <= P) by (rewrite HF; apply Z.mul_div_le; nia).
  assert (FU : P < W * (Y * X) * (F + 1)).
  { rewrite HF. rewrite Z.mul_add_distr_l, Z.mul_1_r.
    pose proof (Z.mod_pos_bound P (W * (Y * X))) as B.
    pose proof (Z.div_mod P (W * (Y * X))) as Dm. nia. }
  assert (M1L : X * (P / X) <= P) by (apply Z.mul_div_le; lia).
  assert (M1U : P < X * (P / X) + X).
  { pose proof (Z.mod_pos_bound P X PX). pose proof (Z.div_mod P X). lia. }
  assert (M2 : 0 <= m2) by (assert (0 <= P / X) by (apply Z.div_pos; unfold P; nia); lia).
  assert (M3L : Y * m3 <= m2) by (rewrite M3; apply Z.mul_div_le; lia).
  assert (M3U : m2 < Y * m3 + Y).
  { rewrite M3. pose proof (Z.mod_pos_bound m2 Y PY). pose proof (Z.div_mod m2 Y). lia. }
  assert (M30 : 0 <= m3) by (rewrite M3; apply Z.div_pos; lia).
  (* the floor of the result *)
  assert (G : Math_floor match m3 with
                         | 0 => S754_zero false
                         | Z.pos q => S754_finite false q e3
                         | Z.neg _ => S754_nan
                         end = m3 / W).
  { destruct m3 as [|q|q]; [reflexivity| |lia].
    cbn [Math_floor]. unfold Zfloor. cbn [cond_Zopp].
    now rewrite Z.shiftl_div_pow2 by lia. }
  rewrite G. split.
  - (* W * F <= m3, through m2 and the first shift *)
    apply Z.div_le_lower_bound; [exact PW|].
    rewrite M3. apply Z.div_le_lower_bound; [exact PY|].
    apply Z.le_trans with (P / X); [|lia].
    apply Z.div_le_lower_bound; [exact PX|].
    replace (X * (Y * (W * F))) with (W * (Y * X) * F) by ring. exact FL.
  - (* m3 < W * (F + 2): each step loses less than one unit *)
    apply Z.lt_succ_r. apply Z.div_lt_upper_bound; [exact PW|].
    replace (Z.succ (F + 1)) with (F + 2) by lia.
    assert (WY : 1 <= W * Y).
    { assert (1 <= W) by lia. assert (1 <= Y) by lia.
      replace 1 with (1 * 1) by reflexivity. apply Z.mul_le_mono_nonneg; lia. }
    assert (XX : X <= W * (Y * X)).
    { replace (W * (Y * X)) with (W * Y * X) by ring.
      replace X with (1 * X) at 1 by ring. apply Z.mul_le_mono_nonneg_r; lia. }
    assert (C1 : X * (Y * m3) <= X * m2) by (apply Z.mul_le_mono_nonneg_l; lia).
    assert (C2 : X * m2 <= X * (P / X + 1)) by (apply Z.mul_le_mono_nonneg_l; lia).
    assert (C3 : X * (Y * m3) < W * (Y * X) * (F + 2)).
    { replace (W * (Y * X) * (F + 2)) with (W * (Y * X) * (F + 1) + W * (Y * X)) by ring.
      lia. }
    apply Z.mul_lt_mono_pos_l with (p := Y); [exact PY|].
    apply Z.mul_lt_mono_pos_l with (p := X); [exact PX|].
    replace (X * (Y * (W * (F + 2)))) with (W * (Y * X) * (F + 2)) by ring.
    exact C3.
Qed.

End ExactPageFacts.

Import Double DoubleFacts ExactPageFacts.

(** X17: for a random number r with 0 <= r < 1 the page is the exact
    floor(100 * r) + 1 or the next page: the rounding of the product can
    lift it onto the next integer and never lowers it. *)
Theorem X17_page_exact_or_next (r : Double.double) :
  Double.in_unit_interval r = true ->
  exact_page r <= Script.page r <= exact_page r + 1.
Proof.
  intro H. unfold Script.page. rewrite of_Z_100.
  destruct (unit_interval_cases r H) as [[s ->] | (m & e & -> & Hm & He)].
  - cbn. lia.
  - cbn [exact_page cond_Zopp]. rewrite Z.shiftl_div_pow2 by lia.
    pose proof (floor_times_100_sandwich m e Hm He). lia.
Qed.

Lemma X17_page_exact_or_next_witness :
  exact_page one_half <= Script.page one_half <= exact_page one_half + 1.
Proof. apply X17_page_exact_or_next. vm_compute. reflexivity. Defined.

(** Both cases occur: the double nearest to 0.29 gives the exact page 29,
    and the double nearest to 0.35, which lies below 0.35, gives page 36
    where the exact product gives 35. *)
Example page_exact :
  exact_page (S754_finite false 5224175567749775 (-54)) = 29 /\
  Script.page (S754_finite false 5224175567749775 (-54)) = 29.
Proof. vm_compute. split; reflexivity. Qed.

Example page_rounds_up :
  Double.in_unit_interval (S754_finite false 6305039478318694 (-54)) = true /\
  exact_page (S754_finite false 6305039478318694 (-54)) = 35 /\
  Script.page (S754_finite false 6305039478318694 (-54)) = 36.
Proof. vm_compute. repeat split; reflexivity. Qed.
